(** * type-mvc: the request-dispatch core, embedded and verified

    Shallow embedding of [ControllerRoute] (route matching, normal dispatch,
    CORS preflight, parameter binding), of [MiddlewareChain] (ordered
    insertion) and of the route-url test of [Configuration], with the
    properties of the specification stated over the embedding. *)

From Stdlib Require Import ZArith String Ascii List DecimalString Lia.
From stdpp Require Import base option list strings sorting gmap.

Local Open Scope string_scope.
Local Open Scope Z_scope.
Local Open Scope list_scope.

(** ** JavaScript string primitives used by the sources *)

Module JS.

(** [s.indexOf(pat)]: position of the first occurrence, or -1. *)
Definition indexOf (s pat : string) : Z :=
  match String.index 0 pat s with
  | Some n => Z.of_nat n
  | None => -1
  end.

(** [s.substr(start, len)] for a non-negative [start]; a negative [len]
    gives the empty string. *)
Definition substr (s : string) (start len : Z) : string :=
  String.substring (Z.to_nat start) (Z.to_nat len) s.

(** [s.replace(pat, repl)] with a string pattern: only the first
    occurrence is replaced. *)
Definition replace (s pat repl : string) : string :=
  match String.index 0 pat s with
  | Some n =>
      String.substring 0 n s +:+ repl
        +:+ String.substring (n + String.length pat)
                             (String.length s - (n + String.length pat)) s
  | None => s
  end.

Definition lowerAscii (a : ascii) : ascii :=
  let n := nat_of_ascii a in
  if ((65 <=? n) && (n <=? 90))%nat then ascii_of_nat (n + 32) else a.

(** [s.toLowerCase()] on the ASCII letters; other bytes are kept. *)
Fixpoint toLowerCase (s : string) : string :=
  match s with
  | EmptyString => EmptyString
  | String a s' => String (lowerAscii a) (toLowerCase s')
  end.

(** Truthiness of a string value: only the empty string is falsy. *)
Definition truthy (s : string) : bool := negb (String.eqb s "").

(** Truthiness of an optional string property ([undefined] is falsy). *)
Definition truthyOpt (o : option string) : bool :=
  match o with
  | Some s => truthy s
  | None => false
  end.

(** A number that is a safe integer ([Number.isSafeInteger]): an integer
    of magnitude below 2^53. These are the numbers [String] prints digit by
    digit; fractions, larger numbers and NaN are not represented. *)
Record SafeInteger := mkSafeInteger {
  integer : Z;
  integer_safe : Is_true (Z.abs integer <? 2 ^ 53)
}.

(** [String(v)] for an optional number: [undefined] prints as the
    nine-letter word. *)
Definition StringOfNumber (v : option SafeInteger) : string :=
  match v with
  | Some n => NilZero.string_of_int (Z.to_int (integer n))
  | None => "undefined"
  end.

(** [\s] on the code units a string holds here (below 256): tab, line
    feed, vertical tab, form feed, carriage return, space and the
    no-break space. *)
Definition isSpace (a : ascii) : bool :=
  let n := nat_of_ascii a in
  ((9 <=? n) && (n <=? 13) || (n =? 32) || (n =? 160))%nat.

(** [/^\s*</.test(s)] *)
Fixpoint startsWithTag (s : string) : bool :=
  match s with
  | EmptyString => false
  | String a s' =>
      if Ascii.eqb a "<" then true
      else if isSpace a then startsWithTag s'
      else false
  end.

End JS.

(** ** Data model *)

(** Modelled from the spec: the [RequestMethod] enumeration (module
    RequestMethod is not under src); the verbs are the ones the decorators
    and the specification name. *)
Module RequestMethod.
Inductive t := Get | Post | Put | Delete | Options | Head | Patch.
End RequestMethod.

(** The route decorators [ControllerRoute] imports; each names one bucket
    of route metadata. *)
Inductive Decorator := Get | Post | Put | Delete | Options.

#[global] Instance Decorator_eq_dec : EqDecision Decorator.
Proof. solve_decision. Defined.

(** A method value as [getDecoratorByMethod] receives it:
    [string | RequestMethod], possibly missing. *)
Inductive MethodValue :=
| MString (s : string)
| MNumber (m : RequestMethod.t).

Record RouteMetadata := mkRouteMetadata {
  route : option string;
  method : option RequestMethod.t;
  propertyKey : string;
  contentType : option string
}.

(** [route.route || ''] *)
Definition routeOf (r : RouteMetadata) : string := default "" (route r).

(** What [getMethodMetadata(decorator, controller)] gives: an object from
    handler name to its metadata entries, in enumeration order. *)
Definition MethodMap (A : Type) := list (string * list A).

Record CorsMetadata := mkCors {
  credentials : option bool;
  exposeHeaders : option string;
  keepHeadersOnError : option bool;
  allowMethods : option (string + list MethodValue);
  allowHeaders : option (string + list string);
  maxAge : option JS.SafeInteger
}.

Record Controller := mkController {
  routeMetadata : Decorator -> MethodMap RouteMetadata;
  corsMethodMetadata : MethodMap CorsMetadata;
  corsTypeMetadata : list CorsMetadata;
  authorizationMetadata : string -> bool
}.

Record ControllerRoute := mkControllerRoute {
  url : string;
  controller : Controller
}.

(** ** Faults, request context and the dispatch monad *)

(** [err instanceof HttpError] separates the two kinds. *)
Inductive ErrorKind :=
| HttpError (code : Z) (message : string)
| OtherError (description : string).

(** A thrown value: its kind and the [headers] property the CORS handler
    may attach. *)
Record Fault := mkFault {
  kind : ErrorKind;
  headers : gmap string string
}.

(** Modelled from the spec: the error classes of module errors (not under
    src), with the status codes of the taxonomy of section 7 and the
    standard reason phrases as messages. *)
Definition BadRequestError : Fault := mkFault (HttpError 400 "Bad Request") ∅.
Definition UnauthorizedError : Fault := mkFault (HttpError 401 "Unauthorized") ∅.
Definition NotFoundError : Fault := mkFault (HttpError 404 "Not Found") ∅.

Inductive Result (A : Type) :=
| Ok (a : A)
| Throw (err : Fault).
Arguments Ok {A} a.
Arguments Throw {A} err.

(** What can be stored in [ctx.response.body] by the dispatcher. *)
Inductive Body :=
| BString (s : string)
| BBuffer (bytes : list Z)
| BUint8Array (bytes : list Z)
| BArray (items : list string)
| BObject (fields : list (string * string)).

(** The request/response context (Koa's [ctx]); [ctx.body], [ctx.type] and
    [ctx.status] are the response's. The interface IContext is not under
    src: [ctx.method] has the type of the parameter of
    [getDecoratorByMethod], which receives it. [ctx_status] and
    [ctx_message] are absent until one is assigned; [ctx_type] is the media
    type of the Content-Type response header, which [ctx.type] reads and
    writes, and is kept apart from the headers written with [ctx.set]. *)
Record Context := mkContext {
  ctx_method : option MethodValue;
  ctx_url : string;
  ctx_request_headers : gmap string string;
  ctx_status : option Z;
  ctx_message : option string;
  ctx_body : option Body;
  ctx_type : option string;
  ctx_response_headers : gmap string string;
  ctx_vary : list string
}.

Definition set_status (v : Z) (c : Context) : Context :=
  mkContext (ctx_method c) (ctx_url c) (ctx_request_headers c) (Some v)
    (ctx_message c) (ctx_body c) (ctx_type c) (ctx_response_headers c) (ctx_vary c).

Definition set_message (v : string) (c : Context) : Context :=
  mkContext (ctx_method c) (ctx_url c) (ctx_request_headers c) (ctx_status c)
    (Some v) (ctx_body c) (ctx_type c) (ctx_response_headers c) (ctx_vary c).

(** [ctx.type = v] for a media type [v]. *)
Definition set_type (v : string) (c : Context) : Context :=
  mkContext (ctx_method c) (ctx_url c) (ctx_request_headers c) (ctx_status c)
    (ctx_message c) (ctx_body c) (Some v) (ctx_response_headers c) (ctx_vary c).

(** The content type Koa derives from a body it is given: a string or a
    Buffer gets one only where the response has none yet (markup or plain
    text by the first character that is no white space, octet-stream for a
    Buffer); any other object is JSON, whatever type was set before. *)
Definition body_type (v : Body) (current : option string) : option string :=
  match v with
  | BString s =>
      if JS.truthyOpt current then current
      else Some (if JS.startsWithTag s then "text/html" else "text/plain")
  | BBuffer _ =>
      if JS.truthyOpt current then current
      else Some "application/octet-stream"
  | BUint8Array _ | BArray _ | BObject _ => Some "application/json"
  end.

(** [ctx.response.body = v] and [ctx.body = v] for a value other than
    [null]: the setter of Koa 2 stores the value, makes the status 200
    where none was assigned, and derives the content type. The
    Content-Length header it also writes is not represented. *)
Definition set_body (v : Body) (c : Context) : Context :=
  mkContext (ctx_method c) (ctx_url c) (ctx_request_headers c)
    (Some (default 200 (ctx_status c)))
    (ctx_message c) (Some v) (body_type v (ctx_type c))
    (ctx_response_headers c) (ctx_vary c).

(** [ctx.set(key, value)] *)
Definition set_header (key value : string) (c : Context) : Context :=
  mkContext (ctx_method c) (ctx_url c) (ctx_request_headers c) (ctx_status c)
    (ctx_message c) (ctx_body c) (ctx_type c)
    (<[key := value]> (ctx_response_headers c)) (ctx_vary c).

(** [ctx.vary(field)] *)
Definition add_vary (field : string) (c : Context) : Context :=
  mkContext (ctx_method c) (ctx_url c) (ctx_request_headers c) (ctx_status c)
    (ctx_message c) (ctx_body c) (ctx_type c) (ctx_response_headers c)
    (ctx_vary c ++ [field]).

(** [ctx.get(name)]: the request header, or the empty string. *)
Definition get_header (c : Context) (name : string) : string :=
  default "" (ctx_request_headers c !! name).

(** A result value renders itself: [sendValue(ctx, container)]. *)
Record ResultValue := mkResultValue {
  rv_contentType : string;
  sendValue : Context -> Result unit * Context
}.

(** [JsonResult]: sets the type and puts the data (or [{}]) in the body. *)
Definition JsonResult (data : option (list (string * string))) : ResultValue :=
  mkResultValue "application/json"
    (fun c => (Ok tt, set_body (BObject (default [] data)) (set_type "application/json" c))).

(** What a handler can return. A Buffer is a value of its own: every
    Buffer is an instance of [Uint8Array], and only a Buffer passes Koa's
    [Buffer.isBuffer]. *)
Inductive Response :=
| RUndefined
| RNumber (z : Z)
| RBoolean (b : bool)
| RString (s : string)
| RUint8Array (bytes : list Z)
| RBuffer (bytes : list Z)
| RArray (items : list string)
| RResult (r : ResultValue)
| RObject (fields : list (string * string)).

Definition isString (r : Response) : bool :=
  match r with RString _ => true | _ => false end.

(** [util.isArray] is [Array.isArray]: a typed array is not an array. *)
Definition isArray (r : Response) : bool :=
  match r with RArray _ => true | _ => false end.

Definition instanceofUint8Array (r : Response) : bool :=
  match r with RUint8Array _ | RBuffer _ => true | _ => false end.

Definition isObject (r : Response) : bool :=
  match r with
  | RUint8Array _ | RBuffer _ | RArray _ | RResult _ | RObject _ => true
  | _ => false
  end.

(** One bound argument: [{ value, index }]. *)
Record AsyncParamProvider := mkProvider {
  value : option string;
  index : nat
}.

(** What the dispatcher does to its collaborators, in order. *)
Inductive Event :=
| EvGetRouteMetaData (d : Decorator)
| EvGetController
| EvIsAuth
| EvGetMethodParameters (key : string)
| EvCreateProvider (key : string)
| EvInvoke (key : string) (args : list AsyncParamProvider)
| EvSendValue
| EvNext
| EvConsoleError (err : Fault).

Record World := mkWorld {
  ctx : Context;
  trace : list Event
}.

(** Computations that read and write the context, call collaborators, and
    may throw. *)
Definition M (A : Type) : Type := World -> Result A * World.

#[global] Instance M_ret : MRet M := fun A a w => (Ok a, w).

#[global] Instance M_bind : MBind M := fun A B f m w =>
  match m w with
  | (Ok a, w') => f a w'
  | (Throw err, w') => (Throw err, w')
  end.

#[global] Instance M_throw : MThrow Fault M := fun A err w => (Throw err, w).

Definition getCtx : M Context := fun w => (Ok (ctx w), w).

Definition modifyCtx (f : Context -> Context) : M unit :=
  fun w => (Ok tt, mkWorld (f (ctx w)) (trace w)).

Definition emit (e : Event) : M unit :=
  fun w => (Ok tt, mkWorld (ctx w) (trace w ++ [e])).

(** A call to a collaborator that may change the context and may throw. *)
Definition callExternal {A} (e : Event) (f : Context -> Result A * Context) : M A :=
  fun w =>
    let '(r, c) := f (ctx w) in
    (r, mkWorld c (trace w ++ [e])).

Definition liftResult {A} (r : Result A) : M A := fun w => (r, w).

(** The external container, as far as the dispatcher uses it. *)
Record IContainer := mkContainer {
  hasAuthorization : bool;
  isAuth : Result bool;
  getMethodParameters : string -> list string;
  invokeMethod : string -> list AsyncParamProvider -> Context -> Result Response * Context;
  corsOptions : option CorsMetadata
}.

(** The continuation [next()]: the rest of the pipeline. *)
Definition Next : Type := Context -> Result unit * Context.

(** Code of this repository that [ControllerRoute] calls and that is not
    under src, taken as parameters; [createProvider] is the parameter
    binder (it reads the request and the container and may throw
    [BadRequestError]), kept abstract. *)
Class Externals := {
  cutEmptyPath : string -> option bool -> string;
  methodToString : MethodValue -> string;
  parseRequestMethod : string -> RequestMethod.t;
  createProvider : IContainer -> RouteMetadata -> list string -> Context ->
                   Result (list AsyncParamProvider)
}.

(** ** Route matcher *)

(** The comparator handed to [sort]:
    [(rb.route || '').length - (ra.route || '').length]. *)
Definition compareRoute (ra rb : RouteMetadata) : Z :=
  Z.of_nat (String.length (routeOf rb)) - Z.of_nat (String.length (routeOf ra)).

Definition routeOrder (ra rb : RouteMetadata) : Prop := compareRoute ra rb <= 0.

#[global] Instance routeOrder_dec : RelDecision routeOrder.
Proof. intros ra rb. unfold routeOrder. apply Z.le_dec. Defined.

(** [isRestUri]: the pattern contains the marker [/:]. *)
Definition isRestUri (uri : string) : bool := 0 <=? JS.indexOf uri "/:".

(** The part of a REST pattern before its first [/:]. *)
Definition staticPrefix (uri : string) : string :=
  JS.substr uri 0 (JS.indexOf uri "/:").

(** The callback of the second [find] in [getRouteMetaData]. *)
Definition restMatch (routPath : string) (r : RouteMetadata) : bool :=
  let uri := routeOf r in
  if isRestUri uri then
    let url := staticPrefix uri in
    negb (String.eqb url routPath) && (JS.indexOf routPath url =? 0)
  else false.

(** The [for ... in] loop that concatenates every handler's entries. *)
Definition flattenMethods (methodMaps : MethodMap RouteMetadata) : list RouteMetadata :=
  foldl (fun acc entry => acc ++ snd entry) [] methodMaps.

(** [allMethods.sort(compare)]: the sort is stable, entries that compare
    equal keep the order they had. An entry goes in front of the first
    entry it does not have to follow. *)
Fixpoint insertByRoute (r : RouteMetadata) (l : list RouteMetadata)
    : list RouteMetadata :=
  match l with
  | [] => [r]
  | x :: l' => if compareRoute r x <=? 0 then r :: l else x :: insertByRoute r l'
  end.

Definition sortByRoute (l : list RouteMetadata) : list RouteMetadata :=
  foldr insertByRoute [] l.

Section Matcher.

(** [cutEmptyPath] takes [None] as second argument where the call site
    omits it. *)
Context `{Externals}.

Definition routPathOf (this : ControllerRoute) (ctx_url : string) : string :=
  let baseURL := cutEmptyPath (url this) (Some true) in
  cutEmptyPath (JS.replace ctx_url baseURL "") None.

Definition getRouteMetaData (this : ControllerRoute) (ctx_url : string)
    (decorator : Decorator) : option RouteMetadata :=
  let routPath := routPathOf this ctx_url in
  let methodMaps := routeMetadata (controller this) decorator in
  let allMethods := sortByRoute (flattenMethods methodMaps) in
  match find (fun r => String.eqb (routeOf r) routPath) allMethods with
  | Some meta => Some meta
  | None => find (restMatch routPath) allMethods
  end.

End Matcher.

(** The candidate list of a request: every entry of the bucket. *)
Definition candidates (this : ControllerRoute) (d : Decorator) : list RouteMetadata :=
  flattenMethods (routeMetadata (controller this) d).

(** The reading of "the candidate with the longer static prefix": no
    compatible candidate has a longer static prefix than the entry [r]. *)
Definition hasLongestStaticPrefix (routPath : string) (all : list RouteMetadata)
    (r : RouteMetadata) : Prop :=
  ∀ c, c ∈ all → restMatch routPath c = true →
       (String.length (staticPrefix (routeOf c))
        ≤ String.length (staticPrefix (routeOf r)))%nat.

(** ** Dispatcher *)

(** [o || d] for an optional string. *)
Definition orElse (o : option string) (d : string) : string :=
  match o with
  | Some s => if JS.truthy s then s else d
  | None => d
  end.

(** The value a response leaves in the body when assigned as it is. *)
Definition bodyOf (r : Response) : option Body :=
  match r with
  | RString s => Some (BString s)
  | RUint8Array b => Some (BUint8Array b)
  | RBuffer b => Some (BBuffer b)
  | RArray l => Some (BArray l)
  | RObject o => Some (BObject o)
  | _ => None
  end.

(** [ctx.response.body = response] *)
Definition assignBody (r : Response) : M unit :=
  match bodyOf r with
  | Some b => modifyCtx (set_body b)
  | None => mret tt
  end.

(** [ctx.response.body = Buffer.from(response)], a copy of the bytes. The
    test in front of it asks for an Array that is an instance of
    [Uint8Array], which none of the values above is. *)
Definition assignBuffer (r : Response) : M unit :=
  match r with
  | RUint8Array b | RBuffer b => modifyCtx (set_body (BBuffer b))
  | _ => mret tt
  end.

(** [return next()] and [await]-free calls of the continuation. *)
Definition callNext (next : Next) : M unit := callExternal EvNext next.

(** The last block of [invoke]: the handler's return value goes into the
    response. [contentType] starts as [meta.contentType]. *)
Definition sendResponse (contentType : option string) (response : Response) : M unit :=
  if isString response then
    let contentType := orElse contentType "text/html" in
    assignBody response
  else if isArray response && instanceofUint8Array response then
    assignBuffer response
  else if isObject response then
    match response with
    | RResult r => callExternal EvSendValue (sendValue r)
    | _ =>
        let contentType := orElse contentType "application/json" in
        modifyCtx (set_type contentType);;
        assignBody response
    end
  else mret tt.

Section Dispatcher.

Context `{Externals}.

Definition getDecoratorByMethod (method : option MethodValue) : Decorator :=
  let method :=
    match method with
    | Some (MNumber m) => methodToString (MNumber m)
    | Some (MString s) => JS.toLowerCase s
    | None => JS.toLowerCase ""
    end in
  if String.eqb method "GET" then Get
  else if String.eqb method "POST" then Post
  else if String.eqb method "Put" then Put
  else if String.eqb method "DElETE" then Delete
  else if String.eqb method "OPTIONS" then Options
  else Get.

Definition invoke (this : ControllerRoute) (container : IContainer)
    (decorator : Decorator)
    (provider : RouteMetadata -> list string -> M (list AsyncParamProvider))
    : M unit :=
  c ← getCtx;
  emit (EvGetRouteMetaData decorator);;
  match getRouteMetaData this (ctx_url c) decorator with
  | Some meta =>
      if JS.truthy (propertyKey meta) then
        emit EvGetController;;
        (if hasAuthorization container then
           if authorizationMetadata (controller this) (propertyKey meta) then
             ok ← callExternal EvIsAuth (fun c => (isAuth container, c));
             if negb ok then mthrow UnauthorizedError else mret tt
           else mret tt
         else mret tt);;
        emit (EvGetMethodParameters (propertyKey meta));;
        let params := getMethodParameters container (propertyKey meta) in
        args ← provider meta params;
        response ← callExternal (EvInvoke (propertyKey meta) args)
                                (invokeMethod container (propertyKey meta) args);
        sendResponse (contentType meta) response
      else mthrow NotFoundError
  | None => mthrow NotFoundError
  end.

(** The provider [navigating] hands to [invoke]. *)
Definition bindParameters (container : IContainer)
    (meta : RouteMetadata) (params : list string) : M (list AsyncParamProvider) :=
  c ← getCtx;
  emit (EvCreateProvider (propertyKey meta));;
  liftResult (createProvider container meta params c).

(** The body of the [try] block of [navigating], up to [return next()]. *)
Definition dispatch (this : ControllerRoute) (container : IContainer) : M unit :=
  c ← getCtx;
  let decorator := getDecoratorByMethod (ctx_method c) in
  if bool_decide (decorator ≠ Options) then
    invoke this container decorator (bindParameters container)
  else mthrow BadRequestError.

(** The [catch] block of [navigating]. *)
Definition reportFault (err : Fault) : M unit :=
  match kind err with
  | HttpError code message =>
      modifyCtx (set_status code);;
      modifyCtx (set_message message)
  | OtherError _ =>
      modifyCtx (set_status 500);;
      emit (EvConsoleError err)
  end.

(** [navigating]: a fault of the [try] body goes to the [catch] block;
    after a fault-free body the promise of [next()] is what the function
    returns, so a rejection of that promise is not caught here. *)
Definition navigating (this : ControllerRoute) (container : IContainer)
    (next : Next) : M unit :=
  fun w =>
    match dispatch this container w with
    | (Ok _, w') => callNext next w'
    | (Throw err, w') => reportFault err w'
    end.

End Dispatcher.

(** ** CORS preflight handler *)

(** [Object.assign({}, options, over)] on the CORS options. *)
Definition assignCors (options over : CorsMetadata) : CorsMetadata :=
  let pick {A} (o b : option A) : option A :=
    match o with Some v => Some v | None => b end in
  mkCors (pick (credentials over) (credentials options))
         (pick (exposeHeaders over) (exposeHeaders options))
         (pick (keepHeadersOnError over) (keepHeadersOnError options))
         (pick (allowMethods over) (allowMethods options))
         (pick (allowHeaders over) (allowHeaders options))
         (pick (maxAge over) (maxAge options)).

Definition emptyCors : CorsMetadata := mkCors None None None None None None.

(** [getMethodMetadata(Cors, controller)[key] || []] *)
Definition corsOfMethod (ctl : Controller) (key : string) : list CorsMetadata :=
  match find (fun e => String.eqb (fst e) key) (corsMethodMetadata ctl) with
  | Some e => snd e
  | None => []
  end.

(** The CORS metadata of a handler: its own, or else the controller's. *)
Definition resolveCors (ctl : Controller) (key : string) : list CorsMetadata :=
  let corsmetas := corsOfMethod ctl key in
  if Z.of_nat (length corsmetas) <? 1 then corsTypeMetadata ctl else corsmetas.

(** [ctx.method !== 'OPTIONS'] *)
Definition methodIsNotOPTIONS (c : Context) : bool :=
  match ctx_method c with
  | Some (MString s) => negb (String.eqb s "OPTIONS")
  | _ => true
  end.

(** The local [set] of [invokeOption]: sets the response header and
    records it in [headersSet]. *)
Definition setRecorded (key value : string) (headersSet : gmap string string)
    : M (gmap string string) :=
  modifyCtx (set_header key value);;
  mret (<[key := value]> headersSet).

Section Cors.

Context `{Externals}.

Definition invokeOption (this : ControllerRoute) (container : IContainer)
    (next : Next) : M unit :=
  c ← getCtx;
  let requestOrigin := get_header c "Origin" in
  modifyCtx (add_vary "Origin");;
  if negb (JS.truthy requestOrigin) then callNext next
  else
    let origin := requestOrigin in
    let headersSet : gmap string string := ∅ in
    let options := default emptyCors (corsOptions container) in
    if methodIsNotOPTIONS c then
      headersSet ← setRecorded "Access-Control-Allow-Origin" origin headersSet;
      headersSet ← (if bool_decide (credentials options = Some true)
                    then setRecorded "Access-Control-Allow-Credentials" "true" headersSet
                    else mret headersSet);
      headersSet ← (if JS.truthyOpt (exposeHeaders options)
                    then setRecorded "Access-Control-Expose-Headers"
                           (default "" (exposeHeaders options)) headersSet
                    else mret headersSet);
      if negb (bool_decide (keepHeadersOnError options = Some true)) then callNext next
      else
        fun w =>
          match callNext next w with
          | (Throw err, w') =>
              (Throw (mkFault (kind err) (headersSet ∪ headers err)), w')
          | r => r
          end
    else
      if negb (JS.truthy (get_header c "Access-Control-Request-Method")) then
        callNext next
      else
        let method := parseRequestMethod (get_header c "Access-Control-Request-Method") in
        let decorator := getDecoratorByMethod (Some (MNumber method)) in
        emit (EvGetRouteMetaData decorator);;
        match getRouteMetaData this (ctx_url c) decorator with
        | Some meta =>
            if JS.truthy (propertyKey meta) then
              match resolveCors (controller this) (propertyKey meta) with
              | first :: _ =>
                  let options := assignCors options first in
                  modifyCtx (set_header "Access-Control-Allow-Origin" origin);;
                  (if bool_decide (credentials options = Some true)
                   then modifyCtx (set_header "Access-Control-Allow-Credentials" "true")
                   else mret tt);;
                  let maxAge := JS.StringOfNumber (maxAge options) in
                  (if JS.truthy maxAge
                   then modifyCtx (set_header "Access-Control-Max-Age" maxAge)
                   else mret tt);;
                  let allowsM :=
                    match allowMethods options with
                    | Some (inr l) => Some (String.concat "," (map methodToString l))
                    | Some (inl s) => Some s
                    | None => None
                    end in
                  let allowsM := orElse allowsM "GET,HEAD,PUT,POST,DELETE,PATCH" in
                  (if JS.truthy allowsM
                   then modifyCtx (set_header "Access-Control-Allow-Methods" allowsM)
                   else mret tt);;
                  let allowH :=
                    match allowHeaders options with
                    | Some (inr l) => Some (String.concat "," l)
                    | Some (inl s) => Some s
                    | None => None
                    end in
                  let allowH :=
                    if negb (JS.truthyOpt allowH)
                    then get_header c "Access-Control-Request-Headers"
                    else default "" allowH in
                  (if JS.truthy allowH
                   then modifyCtx (set_header "Access-Control-Allow-Headers" allowH)
                   else mret tt);;
                  modifyCtx (set_status 204)
              | [] => callNext next
              end
            else callNext next
        | None => callNext next
        end.

End Cors.

(** ** Middleware chain *)

Module MiddlewareChain.

(** A middleware as handed to the chain: a string token, or an object
    (class, registration token, plain function) known by an identifier. *)
Inductive MiddlewareType :=
| MwString (s : string)
| MwObject (id : string).

Record MiddlewareMetadata := mkMeta {
  meta_name : option string;
  before : option string;
  after : option string
}.

Record OrderMiddleware := mkOrder {
  name : option string;
  middleware : MiddlewareType
}.

(** [chain.findIndex(p)]: index of the first hit, or -1. *)
Fixpoint findIndex {A} (p : A -> bool) (l : list A) : Z :=
  match l with
  | [] => -1
  | x :: l' =>
      if p x then 0
      else let i := findIndex p l' in if i <? 0 then -1 else i + 1
  end.

(** [chain.splice(idx, 0, x)] for an index within the array. *)
Definition splice {A} (idx : Z) (x : A) (l : list A) : list A :=
  take (Z.to_nat idx) l ++ x :: drop (Z.to_nat idx) l.

(** The callback [v => v.name && v.name === wanted]. *)
Definition named (wanted : option string) (v : OrderMiddleware) : bool :=
  JS.truthyOpt (name v) && bool_decide (name v = wanted).

Definition insertByMeta (meta : MiddlewareMetadata) (mw : MiddlewareType)
    (chain : list OrderMiddleware) : list OrderMiddleware :=
  let ordMidd := mkOrder (meta_name meta) mw in
  if Z.of_nat (length chain) <? 1 then chain ++ [ordMidd]
  else
    let idx := Z.of_nat (length chain) in
    let idx := if JS.truthyOpt (before meta)
               then findIndex (named (before meta)) chain else idx in
    let idx := if JS.truthyOpt (after meta)
               then findIndex (named (after meta)) chain + 1 else idx in
    if (idx <? 0) || (Z.of_nat (length chain) <=? idx) then chain ++ [ordMidd]
    else splice idx ordMidd chain.

(** A metadata field declares the name [X]: it holds [X] and passes the
    truthiness test [insertByMeta] applies to it ([if (meta.before)],
    [if (meta.after)]), which the empty string fails. *)
Definition declares (field : option string) (X : string) : Prop :=
  field = Some X ∧ JS.truthy X = true.

(** The entry [ord] stands immediately before an entry named [X]. *)
Definition immediatelyBefore (ord : OrderMiddleware) (X : string)
    (chain : list OrderMiddleware) : Prop :=
  ∃ i v, chain !! i = Some ord ∧ chain !! S i = Some v ∧ name v = Some X.

(** Truthiness of a [match] argument: only the empty string token is
    falsy. *)
Definition truthyMiddleware (m : option MiddlewareType) : bool :=
  match m with
  | Some (MwString s) => JS.truthy s
  | Some (MwObject _) => true
  | None => false
  end.

Section Chain.

(** The container and the reflection helpers, as far as the chain
    reads them: the [Middleware] decorator object, [isClass],
    [container.getTokenImpl] and [getTypeMetadata(Middleware, type)]. *)
Variable Middleware : MiddlewareType.
Variable isClass : MiddlewareType -> bool.
Variable getTokenImpl : MiddlewareType -> option MiddlewareType.
Variable getTypeMetadata : MiddlewareType -> list MiddlewareMetadata.

(** [null] and [undefined] results are [None]. *)
Definition getMiddlewareMeta (mw : MiddlewareType) : option MiddlewareMetadata :=
  let type := if isClass mw then Some mw else getTokenImpl mw in
  if from_option isClass false type then
    head (getTypeMetadata (default mw type))
  else
    match mw with
    | MwString s => Some (mkMeta (Some s) None None)
    | MwObject _ => None
    end.

(** [insert]: the metadata is read off the [Middleware] decorator
    itself; registration in the container leaves the chain alone. *)
Definition insert (mw : MiddlewareType)
    (chain : list OrderMiddleware) : list OrderMiddleware :=
  match getMiddlewareMeta Middleware with
  | Some meta => insertByMeta meta mw chain
  | None => chain
  end.

(** Reading [.name] off a missing metadata throws a [TypeError]. *)
Definition nameOf (m : option MiddlewareMetadata) : Result (option string) :=
  match m with
  | Some meta => Ok (meta_name meta)
  | None => Throw (mkFault (OtherError "TypeError") ∅)
  end.

Definition useBefore (mw : MiddlewareType) (match_ : option MiddlewareType)
    (orders : list OrderMiddleware) : Result (list OrderMiddleware) :=
  if truthyMiddleware match_ then
    let bmeta := from_option getMiddlewareMeta None match_ in
    let curMeta := getMiddlewareMeta mw in
    match nameOf curMeta, nameOf bmeta with
    | Ok cur, Ok bname => Ok (insertByMeta (mkMeta cur bname None) mw orders)
    | Throw err, _ => Throw err
    | _, Throw err => Throw err
    end
  else Ok (insert mw orders).

Definition useAfter (mw : MiddlewareType) (match_ : option MiddlewareType)
    (orders : list OrderMiddleware) : Result (list OrderMiddleware) :=
  if truthyMiddleware match_ then
    let afmeta := from_option getMiddlewareMeta None match_ in
    let curMeta := getMiddlewareMeta mw in
    match nameOf curMeta, nameOf afmeta with
    | Ok cur, Ok aname => Ok (insertByMeta (mkMeta cur None aname) mw orders)
    | Throw err, _ => Throw err
    | _, Throw err => Throw err
    end
  else Ok (insert mw orders).

(** [isToken] of the container library and [isFunction] of the platform,
    as [use] consults them. *)
Variable isToken : MiddlewareType -> bool.
Variable isFunction : MiddlewareType -> bool.

(** [getChain]: the middleware of every entry, in order. *)
Definition getChain (orders : list OrderMiddleware) : list MiddlewareType :=
  map middleware orders.

(** [use]: each token is inserted, each plain function is pushed without a
    name, anything else is skipped. *)
Definition use (middlewares : list MiddlewareType) (orders : list OrderMiddleware)
    : list OrderMiddleware :=
  foldl (fun orders mdl =>
           if isToken mdl then insert mdl orders
           else if isFunction mdl then orders ++ [mkOrder None mdl]
           else orders)
        orders middlewares.

End Chain.

End MiddlewareChain.

(** ** Statements used by the further properties *)

Section Statements.

Context `{Externals}.

(** The hypotheses under which [invokeOption] answers a preflight: an
    OPTIONS request with Origin and Access-Control-Request-Method, whose
    target route [meta] resolves to the CORS metadata [first]. *)
Definition answered (this : ControllerRoute) (w : World)
    (meta : RouteMetadata) (first : CorsMetadata) : Prop :=
  let c := ctx w in
  let requested := get_header c "Access-Control-Request-Method" in
  JS.truthy (get_header c "Origin") = true ∧
  methodIsNotOPTIONS c = false ∧
  JS.truthy requested = true ∧
  getRouteMetaData this (ctx_url c)
    (getDecoratorByMethod (Some (MNumber (parseRequestMethod requested)))) = Some meta ∧
  JS.truthy (propertyKey meta) = true ∧
  head (resolveCors (controller this) (propertyKey meta)) = Some first.

End Statements.

(** The options an answered preflight works with: the handler's metadata
    over the global defaults. *)
Definition mergedCors (container : IContainer) (first : CorsMetadata) : CorsMetadata :=
  assignCors (default emptyCors (corsOptions container)) first.

(** [isArray(v) ? v.join(',') : v] for the two list-or-string options. *)
Definition configuredHeaders (options : CorsMetadata) : option string :=
  match allowHeaders options with
  | Some (inr l) => Some (String.concat "," l)
  | Some (inl s) => Some s
  | None => None
  end.

(** The same route with other authorization marks on its handlers. *)
Definition withAuthorizationMetadata (this : ControllerRoute) (marks : string -> bool)
    : ControllerRoute :=
  mkControllerRoute (url this)
    (mkController (routeMetadata (controller this))
                  (corsMethodMetadata (controller this))
                  (corsTypeMetadata (controller this)) marks).

(** The authorization gate lets the handler [key] through: where a service
    is registered and the handler is marked, [isAuth()] answers true. *)
Definition authorized (this : ControllerRoute) (container : IContainer)
    (key : string) : Prop :=
  hasAuthorization container = true →
  authorizationMetadata (controller this) key = true →
  isAuth container = Ok true.

(** The context after [sendResponse] wrote [response] into [c]. *)
Definition responded (contentType : option string) (response : Response)
    (c : Context) : Context :=
  ctx (snd (sendResponse contentType response (mkWorld c []))).

(** ** Parameter binder *)

Module ParameterBinder.

(** A declared parameter type: one of the built-in constructors the binder
    compares with, or anything else, known by an identifier. *)
Inductive ParamToken :=
| TString
| TBoolean
| TNumber
| TDate
| TOther (id : string).

#[global] Instance ParamToken_eq_dec : EqDecision ParamToken.
Proof. solve_decision. Defined.

(** A bound value. The conversions of the one REST value are kept as they
    are written: [paramVal], [new Boolean(paramVal)], [parseFloat(paramVal)]
    and [new Date(paramVal)]; an instance is the object of the container
    with its fields, or the [null] the container gave. *)
Inductive ParamValue :=
| VUndefined
| VString (paramVal : string)
| VBooleanObject (paramVal : string)
| VParseFloat (paramVal : string)
| VDate (paramVal : string)
| VInstance (fields : gmap string string)
| VNull.

(** What [container.get(p)] gives: [null] (or [undefined]), or an object.
    Of an object the binder sees the fields, and what an assignment to a
    property throws where it throws (a setter that throws, a property that
    cannot be written). *)
Inductive Instance :=
| INull
| IObject (fields : gmap string string) (refuses : string -> string -> option Fault).

(** [val[n]] read off an instance. *)
#[global] Instance Instance_lookup : Lookup string string Instance :=
  fun n val =>
    match val with
    | INull => None
    | IObject fields _ => fields !! n
    end.

Definition valueOf (val : Instance) : ParamValue :=
  match val with
  | INull => VNull
  | IObject fields _ => VInstance fields
  end.

(** [val[n] = v]: a [TypeError] on [null], what the property throws where
    it refuses the value, a stored field otherwise. *)
Definition assign (val : Instance) (n v : string) : Result Instance :=
  match val with
  | INull => Throw (mkFault (OtherError "TypeError") ∅)
  | IObject fields refuses =>
      match refuses n v with
      | Some err => Throw err
      | None => Ok (IObject (<[n := v]> fields) refuses)
      end
  end.

Record Provider := mkProvider {
  value : ParamValue;
  index : nat
}.

(** Modelled from the spec: [new BadRequestError(message)] of module
    errors (not under src), status 400 with the message given. *)
Definition BadRequestErrorOf (message : string) : Fault :=
  mkFault (HttpError 400 message) ∅.

(** The value bound to a base-typed parameter from the REST value. *)
Definition convert (p : ParamToken) (paramVal : string) : ParamValue :=
  match p with
  | TString => VString paramVal
  | TBoolean => VBooleanObject paramVal
  | TNumber => VParseFloat paramVal
  | TDate => VDate paramVal
  | TOther _ => VUndefined
  end.

(** The loop [for (let n in meta) if (!isUndefined(body[n])) val[n] = body[n]];
    it ends at the first assignment that throws. *)
Fixpoint assignFields (names : list string) (body : gmap string string)
    (val : Instance) : Result Instance :=
  match names with
  | [] => Ok val
  | n :: names' =>
      match body !! n with
      | Some v =>
          match assign val n v with
          | Ok val' => assignFields names' body val'
          | Throw err => Throw err
          end
      | None => assignFields names' body val
      end
  end.

Section Binder.

Context `{Externals}.

(** [isClass], [isToken] and [isFunction] of the container library, the
    field names [getPropertyMetadata(Field, p)] enumerates,
    [container.get(p)], and [err.toString()]. *)
Variable isClass : ParamToken -> bool.
Variable isToken : ParamToken -> bool.
Variable isFunction : ParamToken -> bool.
Variable getPropertyMetadata : ParamToken -> list string.
Variable containerGet : ParamToken -> Result Instance.
Variable describe : Fault -> string.

Definition isBaseType (p : ParamToken) : bool :=
  if negb (isToken p) then true
  else if bool_decide (p = TBoolean) || bool_decide (p = TString)
          || bool_decide (p = TNumber) then true
  else if negb (isFunction p) then true
  else false.

(** The two tests of the binder that give a parameter a provider. *)
Definition bindable (p : ParamToken) : bool :=
  (isClass p && negb (isBaseType p)) || isBaseType p.

(** The REST value of a request, [null] when the pattern has no
    parameter. *)
Definition restValue (this : ControllerRoute) (meta : RouteMetadata)
    (ctx_url : string) : option string :=
  if isRestUri (routeOf meta) then
    let route := JS.substr (routeOf meta) 0 (JS.indexOf (routeOf meta) "/:") +:+ "/" in
    let routeUrl := routPathOf this ctx_url in
    let querystring := JS.replace routeUrl route "" in
    Some (if 0 <? JS.indexOf querystring "/"
          then JS.substr querystring 0 (JS.indexOf querystring "/")
          else querystring)
  else None.

(** What the [try] block of the class branch computes: the instance of
    the container with the declared fields assigned from the body, or what
    was thrown on the way. *)
Definition instantiate (body : gmap string string) (p : ParamToken) : Result Instance :=
  match containerGet p with
  | Ok val => assignFields (getPropertyMetadata p) body val
  | Throw err => Throw err
  end.

(** The callback of [params.map], with [paramVal] threaded through: the
    provider of one parameter ([None] for [null]) and the REST value left
    for the next ones. Whatever is thrown inside is caught and thrown again
    as a bad request. *)
Definition bindOne (body : gmap string string) (paramVal : option string)
    (p : ParamToken) (idx : nat) : Result (option Provider * option string) :=
  if isClass p && negb (isBaseType p) then
    match instantiate body p with
    | Ok val => Ok (Some (mkProvider (valueOf val) idx), paramVal)
    | Throw err => Throw (BadRequestErrorOf (describe err))
    end
  else if isBaseType p then
    match paramVal with
    | Some s => Ok (Some (mkProvider (convert p s) idx), None)
    | None => Ok (Some (mkProvider VUndefined idx), None)
    end
  else Ok (None, paramVal).

(** [params.map(...)] followed by [filter(p => p !== null)], from index
    [idx] on. *)
Fixpoint bindFrom (body : gmap string string) (paramVal : option string)
    (idx : nat) (params : list ParamToken) : Result (list Provider) :=
  match params with
  | [] => Ok []
  | p :: params' =>
      match bindOne body paramVal p idx with
      | Throw err => Throw err
      | Ok (provider, paramVal') =>
          match bindFrom body paramVal' (S idx) params' with
          | Throw err => Throw err
          | Ok providers =>
              Ok (match provider with
                  | Some pr => pr :: providers
                  | None => providers
                  end)
          end
      end
  end.

(** [createProvider]: of the context it reads the url and the parsed
    request body. *)
Definition createProvider (this : ControllerRoute) (meta : RouteMetadata)
    (params : list ParamToken) (ctx_url : string) (body : gmap string string)
    : Result (list Provider) :=
  if 0 <? Z.of_nat (length params) then
    bindFrom body (restValue this meta ctx_url) 0 params
  else Ok [].

End Binder.

(** A value made from the REST value. *)
Definition fromRest (v : ParamValue) : bool :=
  match v with
  | VString _ | VBooleanObject _ | VParseFloat _ | VDate _ => true
  | _ => false
  end.

End ParameterBinder.

(** ** Configuration: which urls the router takes *)

Module Configuration.

(** Regular expressions, as far as [routeUrlRegExp] needs them. *)
Inductive RegExp :=
| Never
| Empty
| Char (accepts : ascii -> bool)
| Seq (r1 r2 : RegExp)
| Alt (r1 r2 : RegExp)
| Star (r : RegExp).

(** [r+] *)
Definition Plus (r : RegExp) : RegExp := Seq r (Star r).

Fixpoint nullable (r : RegExp) : bool :=
  match r with
  | Never => false
  | Empty => true
  | Char _ => false
  | Seq r1 r2 => nullable r1 && nullable r2
  | Alt r1 r2 => nullable r1 || nullable r2
  | Star _ => true
  end.

(** What is left of [r] after the character [a]. *)
Fixpoint derive (a : ascii) (r : RegExp) : RegExp :=
  match r with
  | Never => Never
  | Empty => Never
  | Char accepts => if accepts a then Empty else Never
  | Seq r1 r2 =>
      if nullable r1 then Alt (Seq (derive a r1) r2) (derive a r2)
      else Seq (derive a r1) r2
  | Alt r1 r2 => Alt (derive a r1) (derive a r2)
  | Star r' => Seq (derive a r') (Star r')
  end.

(** [r] matches the whole of [s]. *)
Fixpoint matches (r : RegExp) (s : string) : bool :=
  match s with
  | EmptyString => nullable r
  | String a s' => matches (derive a r) s'
  end.

(** [/r$/.test(s)]: [r] matches from some position to the end of [s]. *)
Fixpoint testToEnd (r : RegExp) (s : string) : bool :=
  matches r s ||
  match s with
  | EmptyString => false
  | String _ s' => testToEnd r s'
  end.

(** [\w]: a letter, a digit or the underscore. *)
Definition wordChar (a : ascii) : bool :=
  let n := nat_of_ascii a in
  ((65 <=? n) && (n <=? 90) || (97 <=? n) && (n <=? 122)
   || (48 <=? n) && (n <=? 57) || (n =? 95))%nat.

(** [.]: any character but a line terminator. *)
Definition anyChar (a : ascii) : bool :=
  let n := nat_of_ascii a in negb ((n =? 10) || (n =? 13))%nat.

Definition literal (c : ascii) : RegExp := Char (Ascii.eqb c).

(** [routeUrlRegExp = /\/((\w|%|\.))+.\w+$/] without its final [$], which
    [testToEnd] supplies. *)
Definition routeUrlRegExp : RegExp :=
  Seq (literal "/")
    (Seq (Plus (Alt (Char wordChar) (Alt (literal "%") (literal "."))))
       (Seq (Char anyChar) (Plus (Char wordChar)))).

Definition isRouteUrl (ctxUrl : string) : bool :=
  negb (testToEnd routeUrlRegExp ctxUrl).

(** Every character of the string is a word character. *)
Fixpoint allWord (s : string) : bool :=
  match s with
  | EmptyString => true
  | String a s' => wordChar a && allWord s'
  end.

End Configuration.

(** A computation that only adds to the trace and never calls the
    continuation. *)
Definition neverNext {A} (m : M A) : Prop :=
  ∀ w, ∃ t, trace (snd (m w)) = trace w ++ t ∧ EvNext ∉ t.

(** The [try] body of [navigating] ends without a fault. *)
Definition faultFree (r : Result unit * World) : bool :=
  match fst r with
  | Ok _ => true
  | Throw _ => false
  end.

(** ** Concrete instances used to run the definitions *)

(** Modelled from the spec: [methodToString] (module RequestMethod is not
    under src) prints the verb in upper case, as in the default list
    GET,HEAD,PUT,POST,DELETE,PATCH; a string passes unchanged. *)
Definition methodToString_upper (m : MethodValue) : string :=
  match m with
  | MString s => s
  | MNumber RequestMethod.Get => "GET"
  | MNumber RequestMethod.Post => "POST"
  | MNumber RequestMethod.Put => "PUT"
  | MNumber RequestMethod.Delete => "DELETE"
  | MNumber RequestMethod.Options => "OPTIONS"
  | MNumber RequestMethod.Head => "HEAD"
  | MNumber RequestMethod.Patch => "PATCH"
  end.

(** Modelled from the spec: [parseRequestMethod] reads the verb back. *)
Definition parseRequestMethod_upper (s : string) : RequestMethod.t :=
  if String.eqb s "POST" then RequestMethod.Post
  else if String.eqb s "PUT" then RequestMethod.Put
  else if String.eqb s "DELETE" then RequestMethod.Delete
  else if String.eqb s "OPTIONS" then RequestMethod.Options
  else if String.eqb s "HEAD" then RequestMethod.Head
  else if String.eqb s "PATCH" then RequestMethod.Patch
  else RequestMethod.Get.

(** An instance of the parameters for paths that need no trimming (no
    trailing slash, no query string), on a route mounted at the empty
    prefix: [cutEmptyPath] returns such a path as it is; the binder binds
    nothing. *)
Definition plainExternals : Externals :=
  {| cutEmptyPath := fun p _ => p;
     methodToString := methodToString_upper;
     parseRequestMethod := parseRequestMethod_upper;
     createProvider := fun _ _ _ _ => Ok [] |}.

Definition requestOf (m : option MethodValue) (u : string)
    (hs : gmap string string) : Context :=
  mkContext m u hs None None None None ∅ [].

Definition startOf (c : Context) : World := mkWorld c [].

Definition routeEntry (pattern key : string) : RouteMetadata :=
  mkRouteMetadata (Some pattern) (Some RequestMethod.Get) key None.

(** A controller whose GET bucket holds a long pattern with a short static
    prefix and a short pattern with a long static prefix. *)
Definition overlapController : Controller :=
  mkController
    (fun d => match d with
              | Get => [("deep", [routeEntry "/a/b/:z" "deep"]);
                        ("wide", [routeEntry "/a/:x/yyyyyyyy" "wide"])]
              | _ => []
              end)
    [] [] (fun _ => false).

(** A controller with one exact route and two REST routes. *)
Definition usersController : Controller :=
  mkController
    (fun d => match d with
              | Get => [("list", [routeEntry "/users" "list"]);
                        ("show", [routeEntry "/users/:id" "show"]);
                        ("orders", [routeEntry "/users/:id/orders" "orders"])]
              | _ => []
              end)
    [] [] (fun _ => false).

(** A container with an authorization service answering [auth] (when
    registered) and one handler body for every method. *)
Definition containerOf (auth : option (Result bool)) (handler : Result Response)
    (cors : option CorsMetadata) : IContainer :=
  mkContainer (bool_decide (is_Some auth)) (default (Ok true) auth)
    (fun _ => []) (fun _ _ c => (handler, c)) cors.

(** A controller whose only handler requires authorization. *)
Definition guardedController : Controller :=
  mkController
    (fun d => match d with
              | Get => [("secret", [routeEntry "/secret" "secret"])]
              | _ => []
              end)
    [] [] (fun key => String.eqb key "secret").

(** A controller whose one GET handler declares the content type
    text/plain; its path /hi is short enough to pass the default route-url
    test. *)
Definition hiEntry : RouteMetadata :=
  mkRouteMetadata (Some "/hi") (Some RequestMethod.Get) "hi" (Some "text/plain").

Definition hiController : Controller :=
  mkController
    (fun d => match d with
              | Get => [("hi", [hiEntry])]
              | _ => []
              end)
    [] [] (fun _ => false).

(** A controller with a POST handler that declares CORS metadata without
    [maxAge]. *)
Definition itemsController : Controller :=
  mkController
    (fun d => match d with
              | Post => [("create", [mkRouteMetadata (Some "/items") (Some RequestMethod.Post)
                                       "create" None])]
              | _ => []
              end)
    [("create", [mkCors None None None None (Some (inr ["X-Foo"])) None])]
    [] (fun _ => false).

Definition preflightRequest : Context :=
  requestOf (Some (MString "OPTIONS")) "/items"
    (<["Origin" := "https://a.com"]>
       (<["Access-Control-Request-Method" := "POST"]> ∅)).

(** The continuation that does nothing. *)
Definition idleNext : Next := fun c => (Ok tt, c).

(** Requests used below, each starting with an empty trace. *)
Definition optionsHi : World :=
  startOf (requestOf (Some (MString "OPTIONS")) "/hi" ∅).

Definition getHi : World :=
  startOf (requestOf (Some (MString "GET")) "/hi" ∅).

Definition getSecret : World :=
  startOf (requestOf (Some (MString "GET")) "/secret" ∅).

Definition getNothing : World :=
  startOf (requestOf (Some (MString "GET")) "/nothing" ∅).

Definition refusing : IContainer :=
  containerOf (Some (Ok false)) (Ok (RString "leak")) None.

Definition greeting : IContainer :=
  containerOf None (Ok (RString "hi")) None.

Definition markup : IContainer :=
  containerOf None (Ok (RString "<b>hi</b>")) None.

Definition crashing : IContainer :=
  containerOf None (Throw (mkFault (OtherError "boom") ∅)) None.

(** Chains and metadata used below. *)
Definition entryNamed (n : string) : MiddlewareChain.OrderMiddleware :=
  MiddlewareChain.mkOrder (Some n) (MiddlewareChain.MwString n).

Definition chainAB : list MiddlewareChain.OrderMiddleware :=
  [entryNamed "a"; entryNamed "b"].

Definition entryC : MiddlewareChain.OrderMiddleware := entryNamed "c".

Definition cBeforeB : MiddlewareChain.MiddlewareMetadata :=
  MiddlewareChain.mkMeta (Some "c") (Some "b") None.

Definition cBeforeAAfterB : MiddlewareChain.MiddlewareMetadata :=
  MiddlewareChain.mkMeta (Some "c") (Some "a") (Some "b").

Definition cAfterZ : MiddlewareChain.MiddlewareMetadata :=
  MiddlewareChain.mkMeta (Some "c") None (Some "z").

(** The routes mounted at the empty prefix. *)
Definition overlapRoute : ControllerRoute := mkControllerRoute "" overlapController.
Definition usersRoute : ControllerRoute := mkControllerRoute "" usersController.
Definition hiRoute : ControllerRoute := mkControllerRoute "" hiController.

(** Reflection that knows no class: a string token is its own name. *)
Definition noClass : MiddlewareChain.MiddlewareType → bool := fun _ => false.
Definition noImpl : MiddlewareChain.MiddlewareType → option MiddlewareChain.MiddlewareType :=
  fun _ => None.
Definition noTypeMetadata
    : MiddlewareChain.MiddlewareType → list MiddlewareChain.MiddlewareMetadata :=
  fun _ => [].

(** Requests and collaborators for the CORS properties. *)
Definition itemsRoute : ControllerRoute := mkControllerRoute "" itemsController.

Definition itemsCors : CorsMetadata :=
  mkCors None None None None (Some (inr ["X-Foo"])) None.

Definition optionsWithoutRequestMethod : World :=
  startOf (requestOf (Some (MString "OPTIONS")) "/items"
             (<["Origin" := "https://a.com"]> ∅)).

Definition getWithOrigin : World :=
  startOf (requestOf (Some (MString "GET")) "/items"
             (<["Origin" := "https://a.com"]> ∅)).

(** Global options with [credentials] and [keepHeadersOnError] set. *)
Definition keeping : IContainer :=
  containerOf None (Ok (RString "hi"))
    (Some (mkCors (Some true) None (Some true) None None None)).

(** A pipeline that always fails with the same error. *)
Definition downstreamError : Fault := mkFault (OtherError "down") ∅.
Definition failingNext : Next := fun c => (Throw downstreamError, c).

(** Two plain functions handed to [use]. *)
Definition plainFunctions : list MiddlewareChain.MiddlewareType :=
  [MiddlewareChain.MwObject "logger"; MiddlewareChain.MwObject "timer"].

Definition cAfterA : MiddlewareChain.MiddlewareMetadata :=
  MiddlewareChain.mkMeta (Some "c") None (Some "a").

Definition cBeforeZ : MiddlewareChain.MiddlewareMetadata :=
  MiddlewareChain.mkMeta (Some "c") (Some "z") None.

(** A controller whose entry names no handler. *)
Definition anonymousController : Controller :=
  mkController
    (fun d => match d with
              | Get => [("", [routeEntry "/anon" ""])]
              | _ => []
              end)
    [] [] (fun _ => false).

(** Reflection for [use]: nothing is a token, everything is a function. *)
Definition neverToken : MiddlewareChain.MiddlewareType → bool := fun _ => false.
Definition alwaysFunction : MiddlewareChain.MiddlewareType → bool := fun _ => true.

(** A binder set-up: the class UserForm declares the bindable fields name
    and age, and the container builds it with a name and a role; the
    class Broken cannot be built; for the class Ghost, which declares the
    field name, the container answers [null]. *)
Definition demoIsClass (p : ParameterBinder.ParamToken) : bool :=
  match p with
  | ParameterBinder.TOther id =>
      String.eqb id "UserForm" || String.eqb id "Broken" || String.eqb id "Ghost"
  | _ => false
  end.

Definition demoIsToken : ParameterBinder.ParamToken → bool := fun _ => true.

Definition demoIsFunction (p : ParameterBinder.ParamToken) : bool :=
  match p with
  | ParameterBinder.TOther id => negb (String.eqb id "symbol")
  | _ => true
  end.

Definition demoFields (p : ParameterBinder.ParamToken) : list string :=
  match p with
  | ParameterBinder.TOther id =>
      if String.eqb id "UserForm" then ["name"; "age"]
      else if String.eqb id "Ghost" then ["name"]
      else []
  | _ => []
  end.

Definition demoInstance : gmap string string :=
  <["name" := "anonymous"]> (<["role" := "user"]> ∅).

Definition demoGet (p : ParameterBinder.ParamToken) : Result ParameterBinder.Instance :=
  match p with
  | ParameterBinder.TOther id =>
      if String.eqb id "Broken" then Throw (mkFault (OtherError "no provider") ∅)
      else if String.eqb id "Ghost" then Ok ParameterBinder.INull
      else Ok (ParameterBinder.IObject demoInstance (fun _ _ => None))
  | _ => Ok ParameterBinder.INull
  end.

Definition demoDescribe (err : Fault) : string :=
  match kind err with
  | HttpError _ message => message
  | OtherError description => description
  end.

Definition demoBinder :=
  ParameterBinder.createProvider (H := plainExternals) demoIsClass demoIsToken
    demoIsFunction demoFields demoGet demoDescribe.

Definition showMeta : RouteMetadata := routeEntry "/users/:id" "show".

(** A request body that also names a field the class does not declare. *)
Definition formBody : gmap string string :=
  <["name" := "Ann"]> (<["role" := "admin"]> ∅).

(** * Properties *)

(** Unfolds the monad operations and computes one step of a dispatch. *)
Ltac run := unfold mbind, M_bind, mret, M_ret, mthrow, M_throw, getCtx, emit,
  modifyCtx, callExternal, callNext, liftResult; cbn.

(** ** Route matcher *)

Section MatcherFacts.

Context `{Externals}.

#[local] Instance routeOrder_total : Total routeOrder.
Proof. intros ra rb. unfold routeOrder, compareRoute. lia. Qed.

#[local] Instance routeOrder_trans : Transitive routeOrder.
Proof. intros ra rb rc. unfold routeOrder, compareRoute. lia. Qed.

Lemma insertByRoute_Permutation (r : RouteMetadata) (l : list RouteMetadata) :
  insertByRoute r l ≡ₚ r :: l.
Proof.
  induction l as [|x l IH]; simpl; [done|].
  destruct (compareRoute r x <=? 0); [done|].
  by rewrite IH, Permutation_swap.
Qed.

Lemma sortByRoute_Permutation (l : list RouteMetadata) : sortByRoute l ≡ₚ l.
Proof.
  induction l as [|x l IH]; simpl; [done|].
  by rewrite insertByRoute_Permutation, IH.
Qed.

Lemma sortByRoute_elem (l : list RouteMetadata) (e : RouteMetadata) :
  e ∈ sortByRoute l ↔ e ∈ l.
Proof. by rewrite sortByRoute_Permutation. Qed.

Lemma insertByRoute_sorted (r : RouteMetadata) (l : list RouteMetadata) :
  StronglySorted routeOrder l → StronglySorted routeOrder (insertByRoute r l).
Proof.
  induction 1 as [|x l Hs IH Hall]; simpl; [by repeat constructor|].
  destruct (compareRoute r x <=? 0) eqn:Hcmp.
  - apply Z.leb_le in Hcmp. constructor; [by constructor|].
    constructor; [done|].
    eapply Forall_impl; [exact Hall|]. intros y Hy. by transitivity x.
  - apply Z.leb_gt in Hcmp. constructor; [done|].
    rewrite insertByRoute_Permutation. constructor; [|done].
    unfold routeOrder, compareRoute in *. lia.
Qed.

Lemma sortByRoute_sorted (l : list RouteMetadata) :
  StronglySorted routeOrder (sortByRoute l).
Proof.
  induction l as [|x l IH]; simpl; [constructor|]. by apply insertByRoute_sorted.
Qed.

(** The sort is stable: entries of equal pattern length stay in the order
    of the bucket. *)
Lemma sortByRoute_equal_lengths (l : list RouteMetadata) (n : nat) :
  Forall (λ r, String.length (routeOf r) = n) l → sortByRoute l = l.
Proof.
  induction 1 as [|x l Hx Hall IH]; simpl; [done|]. rewrite IH.
  destruct Hall as [|y l Hy Hall]; simpl; [done|].
  unfold compareRoute. rewrite Hx, Hy.
  by rewrite Z.sub_diag.
Qed.

(** [find] on a list in which the hits of [p] are all one entry. *)
Lemma find_unique {A} (p : A -> bool) (l : list A) (e : A) :
  e ∈ l → p e = true → (∀ e', e' ∈ l → p e' = true → e' = e) →
  find p l = Some e.
Proof.
  induction l as [|x l IH]; intros Hin Hp Huniq.
  - by apply elem_of_nil in Hin.
  - simpl. destruct (p x) eqn:Hx.
    + f_equal. apply Huniq; [constructor | done].
    + apply IH; [| done |].
      * apply elem_of_cons in Hin as [->|]; [congruence | done].
      * intros e' He'. apply Huniq. by constructor.
Qed.

(** On a sorted list [find] yields a hit that precedes every other hit. *)
Lemma find_sorted_first {A} (R : relation A) (p : A -> bool) (l : list A) (r : A) :
  StronglySorted R l → find p l = Some r →
  ∀ c, c ∈ l → p c = true → c = r ∨ R r c.
Proof.
  induction 1 as [|x l Hs IH Hall]; intros Hfind c Hc Hpc; [done|].
  simpl in Hfind. destruct (p x) eqn:Hx.
  - injection Hfind as <-. apply elem_of_cons in Hc as [->|Hc]; [by left|].
    right. rewrite Forall_forall in Hall. by apply Hall.
  - apply elem_of_cons in Hc as [->|Hc]; [congruence|]. by apply IH.
Qed.

Lemma find_is_Some {A} (p : A -> bool) (l : list A) (c : A) :
  c ∈ l → p c = true → ∃ r, find p l = Some r.
Proof.
  induction l as [|x l IH]; intros Hin Hp.
  - by apply elem_of_nil in Hin.
  - simpl. destruct (p x) eqn:Hx; [eauto|].
    apply IH; [|done]. apply elem_of_cons in Hin as [->|]; [congruence | done].
Qed.

Lemma find_elem {A} (p : A -> bool) (l : list A) (r : A) :
  find p l = Some r → r ∈ l ∧ p r = true.
Proof.
  intros [Hin Hp]%find_some. split; [by apply list_elem_of_In | done].
Qed.

Lemma find_None_iff {A} (p : A -> bool) (l : list A) :
  (∀ x, x ∈ l → p x = false) → find p l = None.
Proof.
  induction l as [|x l IH]; intros Hall; [done|].
  simpl. rewrite (Hall x) by constructor. apply IH.
  intros y Hy. apply Hall. by constructor.
Qed.

(** C1. When exactly one entry of the bucket selected for the request
    method has a route pattern equal to the normalized request path, the
    matcher returns that entry, whatever REST patterns the bucket also
    holds. *)
Theorem getRouteMetaData_exact_match
    (this : ControllerRoute) (ctx_url : string) (m : option MethodValue)
    (e : RouteMetadata) :
  let d := getDecoratorByMethod m in
  let routPath := routPathOf this ctx_url in
  e ∈ candidates this d →
  routeOf e = routPath →
  (∀ e', e' ∈ candidates this d → routeOf e' = routPath → e' = e) →
  getRouteMetaData this ctx_url d = Some e.
Proof.
  intros d routPath Hin Hroute Huniq. unfold getRouteMetaData.
  fold routPath. unfold candidates in *.
  rewrite (find_unique _ _ e); [done | | |].
  - by apply sortByRoute_elem.
  - by apply String.eqb_eq.
  - intros e' He' Heq. apply Huniq; [by apply sortByRoute_elem|].
    by apply String.eqb_eq.
Qed.

(** C2, as amended. With no exact match and at least one compatible REST
    candidate, the matcher returns a compatible candidate, and no compatible
    candidate has a longer route pattern: candidates are taken in order of
    descending pattern length. *)
Theorem getRouteMetaData_rest_longest_pattern
    (this : ControllerRoute) (ctx_url : string) (m : option MethodValue) :
  let d := getDecoratorByMethod m in
  let routPath := routPathOf this ctx_url in
  (∀ e, e ∈ candidates this d → routeOf e ≠ routPath) →
  (∃ c, c ∈ candidates this d ∧ restMatch routPath c = true) →
  ∃ r, getRouteMetaData this ctx_url d = Some r ∧
       r ∈ candidates this d ∧ restMatch routPath r = true ∧
       ∀ c, c ∈ candidates this d → restMatch routPath c = true →
            (String.length (routeOf c) ≤ String.length (routeOf r))%nat.
Proof.
  intros d routPath Hno [c0 [Hc0 Hm0]]. unfold getRouteMetaData.
  fold routPath. unfold candidates in *.
  set (all := sortByRoute (flattenMethods (routeMetadata (controller this) d))).
  rewrite find_None_iff.
  2:{ intros x Hx. apply String.eqb_neq, Hno. by apply sortByRoute_elem. }
  destruct (find_is_Some (restMatch routPath) all c0) as [r Hr];
    [by apply sortByRoute_elem | done |].
  exists r. split; [done|].
  destruct (find_elem _ _ _ Hr) as [Hin Hpr].
  split; [by apply sortByRoute_elem|]. split; [done|].
  intros c Hc Hpc.
  destruct (find_sorted_first routeOrder _ all r (sortByRoute_sorted _) Hr c)
    as [->|Hord]; [by apply sortByRoute_elem | done | done |].
  unfold routeOrder, compareRoute in Hord. lia.
Qed.

(** On the overlap controller the answer for the normalized path /a/b/c
    is the long pattern, whatever [cutEmptyPath] does to reach that path. *)
Lemma getRouteMetaData_overlap (ctx_url : string) :
  routPathOf overlapRoute ctx_url = "/a/b/c" →
  getRouteMetaData overlapRoute ctx_url Get
    = Some (routeEntry "/a/:x/yyyyyyyy" "wide").
Proof. intros Hpath. unfold getRouteMetaData. by rewrite Hpath. Qed.

End MatcherFacts.

(** C1 run on the users controller: GET /users meets the one exact pattern
    although two REST patterns share its prefix. *)
Lemma getRouteMetaData_exact_match_witness :
  getRouteMetaData (H := plainExternals) usersRoute
    "/users" Get = Some (routeEntry "/users" "list").
Proof.
  apply (getRouteMetaData_exact_match (H := plainExternals)
           usersRoute "/users"
           (Some (MString "GET")) (routeEntry "/users" "list")).
  - vm_compute. repeat constructor.
  - reflexivity.
  - intros e' Hin Heq. vm_compute in Hin.
    repeat (apply elem_of_cons in Hin as [->|Hin]; [done || discriminate Heq|]).
    by apply elem_of_nil in Hin.
Defined.

(** C2, as amended, run on the users controller: GET /users/42 is
    compatible with both REST patterns and the longer one is returned. *)
Lemma getRouteMetaData_rest_longest_pattern_witness :
  ∃ r, getRouteMetaData (H := plainExternals) usersRoute
         "/users/42" Get = Some r ∧
       r ∈ candidates usersRoute Get ∧
       restMatch "/users/42" r = true ∧
       ∀ c, c ∈ candidates usersRoute Get →
            restMatch "/users/42" c = true →
            (String.length (routeOf c) ≤ String.length (routeOf r))%nat.
Proof.
  apply (getRouteMetaData_rest_longest_pattern (H := plainExternals)
           usersRoute "/users/42"
           (Some (MString "GET"))).
  - intros e Hin Heq. vm_compute in Hin.
    repeat (apply elem_of_cons in Hin as [->|Hin]; [discriminate Heq|]).
    by apply elem_of_nil in Hin.
  - exists (routeEntry "/users/:id" "show"). split; [|reflexivity].
    vm_compute. repeat constructor.
Defined.

(** C2 as stated fails: for the normalized path /a/b/c the matcher returns
    the pattern /a/:x/yyyyyyyy (static prefix /a), although the compatible
    pattern /a/b/:z has the longer static prefix /a/b. *)
Lemma getRouteMetaData_longer_static_prefix_counterexample :
  (∀ e, e ∈ candidates overlapRoute Get → routeOf e ≠ "/a/b/c") ∧
  restMatch "/a/b/c" (routeEntry "/a/b/:z" "deep") = true ∧
  restMatch "/a/b/c" (routeEntry "/a/:x/yyyyyyyy" "wide") = true ∧
  getRouteMetaData (H := plainExternals) overlapRoute "/a/b/c" Get
    = Some (routeEntry "/a/:x/yyyyyyyy" "wide") ∧
  ¬ hasLongestStaticPrefix "/a/b/c" (candidates overlapRoute Get)
      (routeEntry "/a/:x/yyyyyyyy" "wide").
Proof.
  repeat split; try reflexivity.
  - intros e Hin Heq. vm_compute in Hin.
    repeat (apply elem_of_cons in Hin as [->|Hin]; [discriminate Heq|]).
    by apply elem_of_nil in Hin.
  - intros Hclaim.
    specialize (Hclaim (routeEntry "/a/b/:z" "deep")).
    assert (Hlen : (4 ≤ 2)%nat); [|lia].
    apply Hclaim; [|reflexivity]. vm_compute. repeat constructor.
Qed.

(** ** Decorator bucket selection *)

Lemma lowerAscii_not_upper (a b : ascii) :
  (65 ≤ nat_of_ascii b ≤ 90)%nat → JS.lowerAscii a ≠ b.
Proof.
  intros Hb. unfold JS.lowerAscii.
  destruct ((65 <=? nat_of_ascii a)%nat && (nat_of_ascii a <=? 90)%nat) eqn:Hrange.
  - apply andb_true_iff in Hrange as [Hlo%Nat.leb_le Hhi%Nat.leb_le].
    intros Heq. apply (f_equal nat_of_ascii) in Heq.
    rewrite nat_ascii_embedding in Heq by lia. lia.
  - intros ->. apply andb_false_iff in Hrange as [Hlo|Hhi].
    + apply Nat.leb_gt in Hlo. lia.
    + apply Nat.leb_gt in Hhi. lia.
Qed.

(** A lower-cased string never starts with an upper-case letter. *)
Lemma toLowerCase_neq_upper_head (s t : string) (b : ascii) :
  (65 ≤ nat_of_ascii b ≤ 90)%nat → String.eqb (JS.toLowerCase s) (String b t) = false.
Proof.
  intros Hb. apply String.eqb_neq. destruct s as [|a s]; simpl; [done|].
  intros Heq. injection Heq as Ha _. by apply (lowerAscii_not_upper a b).
Qed.

Section DispatcherFacts.

Context `{Externals}.

(** C3, what the code does: the method string is lower-cased before it is
    compared with the upper-case labels, so every string method, POST, PUT,
    DELETE and OPTIONS among them, selects the GET bucket. *)
Theorem getDecoratorByMethod_string_is_Get (s : string) :
  getDecoratorByMethod (Some (MString s)) = Get.
Proof.
  unfold getDecoratorByMethod.
  rewrite !toLowerCase_neq_upper_head; [done | vm_compute; lia ..].
Qed.

Lemma getDecoratorByMethod_missing_is_Get : getDecoratorByMethod None = Get.
Proof. reflexivity. Qed.

(** For an enumeration value the bucket follows the printed verb; the
    labels for PUT and DELETE are spelled [Put] and [DElETE]. *)
Lemma getDecoratorByMethod_number_upper (m : RequestMethod.t) :
  methodToString (MNumber m) = "PUT" ∨ methodToString (MNumber m) = "DELETE" →
  getDecoratorByMethod (Some (MNumber m)) = Get.
Proof.
  unfold getDecoratorByMethod. by intros [-> | ->].
Qed.

(** Every string method selects the GET bucket: no lower-cased string
    equals a label, which all hold an upper-case letter. *)
Lemma getDecoratorByMethod_of_string (s : string) :
  getDecoratorByMethod (Some (MString s)) = Get.
Proof.
  unfold getDecoratorByMethod.
  rewrite !toLowerCase_neq_upper_head; [done | vm_compute; lia ..].
Qed.

(** The bad-request branch of [navigating], where it is reached: status
    400 and nothing called. Only an enumeration value printed as OPTIONS
    selects that bucket, and the platform hands over no such method. *)
Lemma navigating_options_bucket
    (this : ControllerRoute) (container : IContainer) (next : Next) (w : World) :
  getDecoratorByMethod (ctx_method (ctx w)) = Options →
  ∃ w', navigating this container next w = (Ok tt, w') ∧
        ctx_status (ctx w') = Some 400 ∧
        ctx_message (ctx w') = Some "Bad Request" ∧
        ctx_body (ctx w') = ctx_body (ctx w) ∧
        trace w' = trace w.
Proof.
  intros Hd. unfold navigating, dispatch. run. rewrite Hd. run.
  eexists. split; [reflexivity|]. done.
Qed.

(** C4, what the code does: a request whose method is a string, as every
    request the platform delivers is, OPTIONS among them, never takes the
    bad-request branch of [navigating]: it selects the GET bucket (the
    defect of C3) and is dispatched like a GET request, matcher and handler
    included. *)
Theorem navigating_string_method_as_get
    (this : ControllerRoute) (container : IContainer) (next : Next) (w : World)
    (s : string) :
  ctx_method (ctx w) = Some (MString s) →
  navigating this container next w
    = match invoke this container Get (bindParameters container) w with
      | (Ok _, w') => callNext next w'
      | (Throw err, w') => reportFault err w'
      end.
Proof.
  intros Hmethod. unfold navigating, dispatch.
  unfold mbind at 1, M_bind at 1, getCtx at 1.
  by rewrite Hmethod, getDecoratorByMethod_of_string.
Qed.

(** C5. With the authorization service registered, the matched handler
    marked as requiring authorization and [isAuth()] answering false,
    [navigating] answers 401 Unauthorized; the only collaborators called
    are the matcher, the controller lookup and [isAuth]: neither
    [getMethodParameters], nor the binder, nor the handler, nor the
    continuation run. *)
Theorem navigating_unauthorized
    (this : ControllerRoute) (container : IContainer) (next : Next) (w : World)
    (meta : RouteMetadata) :
  let d := getDecoratorByMethod (ctx_method (ctx w)) in
  d ≠ Options →
  getRouteMetaData this (ctx_url (ctx w)) d = Some meta →
  JS.truthy (propertyKey meta) = true →
  hasAuthorization container = true →
  authorizationMetadata (controller this) (propertyKey meta) = true →
  isAuth container = Ok false →
  ∃ w', navigating this container next w = (Ok tt, w') ∧
        ctx_status (ctx w') = Some 401 ∧
        ctx_message (ctx w') = Some "Unauthorized" ∧
        ctx_body (ctx w') = ctx_body (ctx w) ∧
        trace w' = trace w ++ [EvGetRouteMetaData d; EvGetController; EvIsAuth].
Proof.
  intros d Hd Hmeta Hkey Hhas Hreq Hauth.
  unfold navigating, dispatch, invoke. run. fold d.
  rewrite bool_decide_true by done. run.
  rewrite Hmeta, Hkey. run. rewrite Hhas, Hreq. run. rewrite Hauth. run.
  eexists. split; [reflexivity|]. cbn. by rewrite <- !app_assoc.
Qed.

(** The matcher finding nothing is a NotFound fault of the [try] body. *)
Lemma dispatch_not_found
    (this : ControllerRoute) (container : IContainer) (w : World) :
  let d := getDecoratorByMethod (ctx_method (ctx w)) in
  d ≠ Options →
  getRouteMetaData this (ctx_url (ctx w)) d = None →
  dispatch this container w
    = (Throw NotFoundError, mkWorld (ctx w) (trace w ++ [EvGetRouteMetaData d])).
Proof.
  intros d Hd Hmeta. unfold dispatch, invoke. run. fold d.
  rewrite bool_decide_true by done. run. by rewrite Hmeta.
Qed.

(** A fault of the handler body is a fault of the [try] body. *)
Lemma dispatch_handler_fault
    (this : ControllerRoute) (container : IContainer) (w : World)
    (meta : RouteMetadata) (args : list AsyncParamProvider) (err : Fault) (c1 : Context) :
  let d := getDecoratorByMethod (ctx_method (ctx w)) in
  let key := propertyKey meta in
  d ≠ Options →
  getRouteMetaData this (ctx_url (ctx w)) d = Some meta →
  JS.truthy key = true →
  hasAuthorization container = false →
  createProvider container meta (getMethodParameters container key) (ctx w) = Ok args →
  invokeMethod container key args (ctx w) = (Throw err, c1) →
  dispatch this container w
    = (Throw err,
       mkWorld c1 (trace w ++ [EvGetRouteMetaData d; EvGetController;
                               EvGetMethodParameters key; EvCreateProvider key;
                               EvInvoke key args])).
Proof.
  intros d key Hd Hmeta Hkey Hhas Hargs Hcall.
  unfold dispatch, invoke, bindParameters. run. fold d.
  rewrite bool_decide_true by done. run.
  rewrite Hmeta. fold key. rewrite Hkey. run. rewrite Hhas. run.
  fold key. rewrite Hargs. run. rewrite Hcall. cbn.
  by rewrite <- !app_assoc.
Qed.

(** C6. A fault raised by the [try] body of [navigating] (bucket
    selection, matching, authorization, binding, the handler, the
    serialization) never leaves [navigating]: an [HttpError] sets the
    status and the message to its code and message; any other fault sets
    status 500 and is written to the console. *)
Theorem navigating_reports_fault
    (this : ControllerRoute) (container : IContainer) (next : Next)
    (w w1 : World) (err : Fault) :
  dispatch this container w = (Throw err, w1) →
  ∃ w', navigating this container next w = (Ok tt, w') ∧
        match kind err with
        | HttpError code message =>
            ctx_status (ctx w') = Some code ∧
            ctx_message (ctx w') = Some message ∧
            trace w' = trace w1
        | OtherError _ =>
            ctx_status (ctx w') = Some 500 ∧
            ctx_message (ctx w') = ctx_message (ctx w1) ∧
            trace w' = trace w1 ++ [EvConsoleError err]
        end.
Proof.
  intros Hthrow. unfold navigating. rewrite Hthrow. unfold reportFault.
  destruct (kind err) as [code message|description]; run;
    (eexists; split; [reflexivity|]; done).
Qed.

(** What [navigating] returns: it settles normally, unless the [try] body
    ran without a fault and the promise of [next()] is rejected. *)
Lemma navigating_outcome
    (this : ControllerRoute) (container : IContainer) (next : Next) (w : World) :
  (∃ w', navigating this container next w = (Ok tt, w')) ∨
  (∃ w1 err w', dispatch this container w = (Ok tt, w1) ∧
                callNext next w1 = (Throw err, w') ∧
                navigating this container next w = (Throw err, w')).
Proof.
  unfold navigating.
  destruct (dispatch this container w) as [[[]|err] w1] eqn:Hbody.
  - destruct (callNext next w1) as [[[]|err] w'] eqn:Hnext; [left; eauto|].
    right. by exists w1, err, w'.
  - left. unfold reportFault. destruct (kind err); run; eauto.
Qed.

(** C7, what the code does: for a string the body is set, and the computed
    [contentType] is never assigned. The content type of the response is
    what the platform derives from the body: the one the response already
    has, else text/html for a string that starts with a tag and text/plain
    for any other; [meta.contentType] plays no part. *)
Theorem sendResponse_string_type
    (contentType : option string) (s : string) (w : World) :
  ∃ w', sendResponse contentType (RString s) w = (Ok tt, w') ∧
        ctx_body (ctx w') = Some (BString s) ∧
        ctx_type (ctx w')
          = (if JS.truthyOpt (ctx_type (ctx w)) then ctx_type (ctx w)
             else Some (if JS.startsWithTag s then "text/html" else "text/plain")) ∧
        trace w' = trace w.
Proof.
  unfold sendResponse, assignBody. run. destruct w as [c t].
  eexists. split; [reflexivity|]. done.
Qed.

(** A result value sends itself. *)
Lemma sendResponse_result_value
    (contentType : option string) (r : ResultValue) (w : World) :
  sendResponse contentType (RResult r) w = callExternal EvSendValue (sendValue r) w.
Proof. reflexivity. Qed.

Example sendResponse_JsonResult (w : World) :
  ctx_type (ctx (snd (sendResponse None (RResult (JsonResult None)) w)))
    = Some "application/json".
Proof. reflexivity. Qed.

(** The sibling branch for plain objects does assign the content type
    before it assigns the body. *)
Lemma sendResponse_object_sets_type
    (contentType : option string) (o : list (string * string)) (w : World) :
  sendResponse contentType (RObject o) w
    = (Ok tt, mkWorld (set_body (BObject o)
                         (set_type (orElse contentType "application/json") (ctx w)))
                      (trace w)).
Proof. reflexivity. Qed.

End DispatcherFacts.

(** C3 at the failing input: a POST request is served from the GET
    bucket. *)
Example getDecoratorByMethod_POST :
  getDecoratorByMethod (H := plainExternals) (Some (MString "POST")) = Get.
Proof. reflexivity. Qed.

(** C4 at the failing input: the request OPTIONS /hi goes the way of a GET
    request. *)
Lemma navigating_string_method_as_get_witness :
  navigating (H := plainExternals) hiRoute greeting idleNext optionsHi
    = match invoke (H := plainExternals) hiRoute greeting Get
              (bindParameters (H := plainExternals) greeting) optionsHi with
      | (Ok _, w') => callNext idleNext w'
      | (Throw err, w') => reportFault err w'
      end.
Proof.
  apply (navigating_string_method_as_get (H := plainExternals)
           hiRoute greeting idleNext optionsHi "OPTIONS").
  reflexivity.
Defined.

(** What that comes to: the url passes the route-url test in front of the
    router, the handler of GET /hi runs and its string is sent with status
    200; there is no bad request. *)
Example navigating_options_request_runs_handler :
  Configuration.isRouteUrl "/hi" = true ∧
  ∃ w', navigating (H := plainExternals) hiRoute greeting idleNext optionsHi
          = (Ok tt, w') ∧
        ctx_status (ctx w') = Some 200 ∧
        ctx_body (ctx w') = Some (BString "hi") ∧
        trace w' = [EvGetRouteMetaData Get; EvGetController;
                    EvGetMethodParameters "hi"; EvCreateProvider "hi";
                    EvInvoke "hi" []; EvNext].
Proof. split; [reflexivity|]. eexists. split; [reflexivity|]. done. Qed.

(** C5 run on the guarded controller with a refusing authorization
    service. *)
Lemma navigating_unauthorized_witness :
  ∃ w', navigating (H := plainExternals) (mkControllerRoute "" guardedController)
          refusing idleNext getSecret = (Ok tt, w') ∧
        ctx_status (ctx w') = Some 401 ∧
        ctx_message (ctx w') = Some "Unauthorized" ∧
        ctx_body (ctx w') = None ∧
        trace w' = [EvGetRouteMetaData Get; EvGetController; EvIsAuth].
Proof.
  apply (navigating_unauthorized (H := plainExternals)
           (mkControllerRoute "" guardedController) refusing idleNext getSecret
           (routeEntry "/secret" "secret")); try reflexivity.
  discriminate.
Defined.

(** C6 run on a request that matches nothing: the NotFound fault becomes
    status 404. *)
Lemma navigating_reports_fault_witness :
  ∃ w', navigating (H := plainExternals) usersRoute
          greeting idleNext getNothing = (Ok tt, w') ∧
        ctx_status (ctx w') = Some 404 ∧
        ctx_message (ctx w') = Some "Not Found" ∧
        trace w' = [EvGetRouteMetaData Get].
Proof.
  apply (navigating_reports_fault (H := plainExternals)
           usersRoute greeting idleNext getNothing
           (mkWorld (ctx getNothing) [EvGetRouteMetaData Get]) NotFoundError).
  reflexivity.
Defined.

(** A handler that throws something else gives status 500 and a console
    line, and the continuation is not called. *)
Example navigating_handler_crash :
  ∃ w', navigating (H := plainExternals) usersRoute
          crashing idleNext
          (startOf (requestOf (Some (MString "GET")) "/users" ∅)) = (Ok tt, w') ∧
        ctx_status (ctx w') = Some 500 ∧
        ctx_message (ctx w') = None ∧
        trace w' = [EvGetRouteMetaData Get; EvGetController;
                    EvGetMethodParameters "list"; EvCreateProvider "list";
                    EvInvoke "list" []; EvConsoleError (mkFault (OtherError "boom") ∅)].
Proof. eexists. split; [reflexivity|]. done. Qed.

(** A full dispatch: GET /users/42 reaches the handler of the longest
    compatible pattern, a plain object is sent as application/json, and the
    continuation runs last. *)
Example navigating_object_json :
  ∃ w', navigating (H := plainExternals) usersRoute
          (containerOf None (Ok (RObject [("id", "42")])) None) idleNext
          (startOf (requestOf (Some (MString "GET")) "/users/42" ∅)) = (Ok tt, w') ∧
        ctx_body (ctx w') = Some (BObject [("id", "42")]) ∧
        ctx_type (ctx w') = Some "application/json" ∧
        ctx_status (ctx w') = Some 200 ∧
        trace w' = [EvGetRouteMetaData Get; EvGetController;
                    EvGetMethodParameters "orders"; EvCreateProvider "orders";
                    EvInvoke "orders" []; EvNext].
Proof. eexists. split; [reflexivity|]. done. Qed.

(** C7 at the failing input: the handler of GET /hi declares text/plain
    and returns markup; the url passes the route-url test, the body is set,
    and the response is text/html. *)
Example navigating_string_declared_type_dropped :
  Configuration.isRouteUrl "/hi" = true ∧
  contentType hiEntry = Some "text/plain" ∧
  ∃ w', navigating (H := plainExternals) hiRoute markup idleNext getHi = (Ok tt, w') ∧
        ctx_body (ctx w') = Some (BString "<b>hi</b>") ∧
        ctx_type (ctx w') = Some "text/html".
Proof. repeat split. eexists. split; [reflexivity|]. done. Qed.

(** With no content type declared a string that is no markup is sent as
    text/plain, not as the text/html the dispatcher computes. *)
Example navigating_string_default_type_dropped :
  ∃ w', navigating (H := plainExternals) usersRoute greeting idleNext
          (startOf (requestOf (Some (MString "GET")) "/users" ∅)) = (Ok tt, w') ∧
        ctx_body (ctx w') = Some (BString "hi") ∧
        ctx_type (ctx w') = Some "text/plain".
Proof. eexists. split; [reflexivity|]. done. Qed.

(** ** CORS preflight *)

Lemma StringOfNumber_truthy (v : option JS.SafeInteger) :
  JS.truthy (JS.StringOfNumber v) = true.
Proof.
  destruct v as [n|]; [|reflexivity]. unfold JS.StringOfNumber.
  destruct (Z.to_int (JS.integer n)) as [d|d]; [|reflexivity].
  by destruct d.
Qed.

Section CorsFacts.

Context `{Externals}.

(** C8, what the code does: in the 204 branch of the preflight the header
    Access-Control-Max-Age is always set, to [String(options.maxAge)]; with
    no [maxAge] configured its value is the word undefined. *)
Theorem invokeOption_preflight_max_age
    (this : ControllerRoute) (container : IContainer) (next : Next) (w : World)
    (meta : RouteMetadata) (first : CorsMetadata) (rest : list CorsMetadata) :
  let c := ctx w in
  let requested := get_header c "Access-Control-Request-Method" in
  let options := assignCors (default emptyCors (corsOptions container)) first in
  JS.truthy (get_header c "Origin") = true →
  methodIsNotOPTIONS c = false →
  JS.truthy requested = true →
  getRouteMetaData this (ctx_url c)
    (getDecoratorByMethod (Some (MNumber (parseRequestMethod requested)))) = Some meta →
  JS.truthy (propertyKey meta) = true →
  resolveCors (controller this) (propertyKey meta) = first :: rest →
  ∃ w', invokeOption this container next w = (Ok tt, w') ∧
        ctx_status (ctx w') = Some 204 ∧
        ctx_response_headers (ctx w') !! "Access-Control-Max-Age"
          = Some (JS.StringOfNumber (maxAge options)) ∧
        (maxAge options = None →
         ctx_response_headers (ctx w') !! "Access-Control-Max-Age" = Some "undefined").
Proof.
  intros c requested options Horigin Hmethod Hreq Hmeta Hkey Hcors.
  unfold invokeOption. run. fold c. rewrite Horigin. run.
  rewrite Hmethod. fold requested. rewrite Hreq. run.
  rewrite Hmeta, Hkey, Hcors. fold options.
  rewrite StringOfNumber_truthy. run.
  assert (Hgoal : ∀ w', ctx_status (ctx w') = Some 204 →
    ctx_response_headers (ctx w') !! "Access-Control-Max-Age"
      = Some (JS.StringOfNumber (maxAge options)) →
    ctx_status (ctx w') = Some 204 ∧
    ctx_response_headers (ctx w') !! "Access-Control-Max-Age"
      = Some (JS.StringOfNumber (maxAge options)) ∧
    (maxAge options = None →
     ctx_response_headers (ctx w') !! "Access-Control-Max-Age" = Some "undefined")).
  { intros w' Hs Hh. repeat split; [done | done |]. intros Hnone.
    by rewrite Hh, Hnone. }
  repeat (match goal with
          | |- context [if ?b then _ else _] => destruct b
          end; run);
    (eexists; split; [reflexivity|]); apply Hgoal; cbn;
    try done; rewrite ?lookup_insert_ne by done; apply lookup_insert_eq.
Qed.

End CorsFacts.

(** C8 at the failing input: a preflight for POST /items whose CORS
    metadata has no [maxAge] is answered 204 with the header
    Access-Control-Max-Age: undefined. *)
Lemma invokeOption_preflight_max_age_witness :
  ∃ w', invokeOption (H := plainExternals) (mkControllerRoute "" itemsController)
          greeting idleNext (startOf preflightRequest) = (Ok tt, w') ∧
        ctx_status (ctx w') = Some 204 ∧
        ctx_response_headers (ctx w') !! "Access-Control-Max-Age" = Some "undefined" ∧
        (@None JS.SafeInteger = None →
         ctx_response_headers (ctx w') !! "Access-Control-Max-Age" = Some "undefined").
Proof.
  apply (invokeOption_preflight_max_age (H := plainExternals)
           (mkControllerRoute "" itemsController) greeting idleNext
           (startOf preflightRequest)
           (mkRouteMetadata (Some "/items") (Some RequestMethod.Post) "create" None)
           (mkCors None None None None (Some (inr ["X-Foo"])) None) []);
    reflexivity.
Defined.

(** The whole answer to that preflight. *)
Example invokeOption_preflight_headers :
  let result := invokeOption (H := plainExternals) (mkControllerRoute "" itemsController)
                  greeting idleNext (startOf preflightRequest) in
  fst result = Ok tt ∧
  ctx_status (ctx (snd result)) = Some 204 ∧
  ctx_response_headers (ctx (snd result)) =
    list_to_map [("Access-Control-Allow-Origin", "https://a.com");
                 ("Access-Control-Max-Age", "undefined");
                 ("Access-Control-Allow-Methods", "GET,HEAD,PUT,POST,DELETE,PATCH");
                 ("Access-Control-Allow-Headers", "X-Foo")] ∧
  ctx_vary (ctx (snd result)) = ["Origin"] ∧
  trace (snd result) = [EvGetRouteMetaData Post].
Proof. vm_compute. repeat split. Qed.

(** ** Middleware chain *)

Section ChainFacts.

Import MiddlewareChain.

Lemma findIndex_first {A} (p : A → bool) (l : list A) (i : nat) (x : A) :
  l !! i = Some x → p x = true →
  (∀ j y, (j < i)%nat → l !! j = Some y → p y = false) →
  findIndex p l = Z.of_nat i.
Proof.
  revert i. induction l as [|x0 l IH]; intros i Hi Hp Hbefore; [done|].
  destruct i as [|i]; simpl in *.
  - injection Hi as ->. by rewrite Hp.
  - rewrite (Hbefore 0%nat x0) by (done || lia).
    rewrite (IH i Hi Hp).
    + destruct (Z.ltb_spec (Z.of_nat i) 0); lia.
    + intros j y Hj Hy. apply (Hbefore (S j)); [lia | done].
Qed.

Lemma findIndex_none {A} (p : A → bool) (l : list A) :
  (∀ x, x ∈ l → p x = false) → findIndex p l = -1.
Proof.
  induction l as [|x0 l IH]; intros Hall; [done|]. simpl.
  rewrite (Hall x0) by constructor. rewrite IH; [done|].
  intros x Hx. apply Hall. by constructor.
Qed.

Lemma findIndex_bounds {A} (p : A → bool) (l : list A) :
  -1 ≤ findIndex p l < Z.of_nat (length l).
Proof.
  induction l as [|x0 l IH]; simpl; [lia|].
  destruct (p x0); [lia|].
  destruct (Z.ltb_spec (findIndex p l) 0); lia.
Qed.

Lemma named_hit (X : string) (v : OrderMiddleware) :
  name v = Some X → JS.truthy X = true → named (Some X) v = true.
Proof.
  intros Hn HX. unfold named. rewrite Hn. simpl. rewrite HX.
  by rewrite bool_decide_true.
Qed.

Lemma named_miss (X : string) (v : OrderMiddleware) :
  name v ≠ Some X → named (Some X) v = false.
Proof.
  intros Hn. unfold named. rewrite bool_decide_false by done.
  apply andb_false_r.
Qed.

(** Every insertion puts one new entry somewhere and leaves the entries
    already placed in their order: nothing is moved afterwards. *)
Lemma insertByMeta_inserts_one
    (meta : MiddlewareMetadata) (mw : MiddlewareType) (chain : list OrderMiddleware) :
  ∃ k, (k ≤ length chain)%nat ∧
       insertByMeta meta mw chain
         = take k chain ++ mkOrder (meta_name meta) mw :: drop k chain.
Proof.
  assert (Hpush : chain ++ [mkOrder (meta_name meta) mw]
                  = take (length chain) chain
                    ++ mkOrder (meta_name meta) mw :: drop (length chain) chain).
  { by rewrite take_ge, drop_ge by lia. }
  unfold insertByMeta.
  destruct (Z.ltb_spec (Z.of_nat (length chain)) 1); [by exists (length chain)|].
  match goal with |- context [if (?a <? 0) || (?b <=? ?a) then _ else _] =>
    set (idx := a) end.
  destruct (Z.ltb_spec idx 0); simpl; [by exists (length chain)|].
  destruct (Z.leb_spec (Z.of_nat (length chain)) idx); [by exists (length chain)|].
  exists (Z.to_nat idx). split; [lia | done].
Qed.

(** C9, as amended. An insertion that declares [before = X] and declares
    no [after], made when the first entry named [X] stands at index [i],
    puts the new entry at index [i], immediately before that entry; and no
    later insertion moves entries already placed, so an earlier constraint
    is never re-established. *)
Theorem insertByMeta_before_present
    (meta : MiddlewareMetadata) (mw : MiddlewareType) (chain : list OrderMiddleware)
    (X : string) (i : nat) (v : OrderMiddleware) :
  declares (before meta) X →
  JS.truthyOpt (after meta) = false →
  chain !! i = Some v → name v = Some X →
  (∀ j u, (j < i)%nat → chain !! j = Some u → name u ≠ Some X) →
  let ord := mkOrder (meta_name meta) mw in
  let chain' := insertByMeta meta mw chain in
  chain' = take i chain ++ ord :: drop i chain ∧
  chain' !! i = Some ord ∧
  chain' !! S i = Some v ∧
  immediatelyBefore ord X chain' ∧
  ∀ meta2 mw2, ∃ k,
    insertByMeta meta2 mw2 chain'
      = take k chain' ++ mkOrder (meta_name meta2) mw2 :: drop k chain'.
Proof.
  intros [Hbefore HX] Hafter Hi Hname Hfirst ord chain'.
  pose proof (lookup_lt_Some _ _ _ Hi) as Hlt.
  assert (Heq : chain' = take i chain ++ ord :: drop i chain).
  { unfold chain', insertByMeta. fold ord.
    destruct (Z.ltb_spec (Z.of_nat (length chain)) 1); [lia|].
    rewrite Hafter, Hbefore. simpl. rewrite HX.
    rewrite (findIndex_first _ chain i v Hi (named_hit X v Hname HX)).
    2:{ intros j u Hj Hu. apply named_miss. by apply (Hfirst j). }
    destruct (Z.ltb_spec (Z.of_nat i) 0); [lia|].
    destruct (Z.leb_spec (Z.of_nat (length chain)) (Z.of_nat i)); [lia|].
    simpl. unfold splice. by rewrite Nat2Z.id. }
  assert (Hord : chain' !! i = Some ord).
  { rewrite Heq. apply list_lookup_middle. rewrite length_take. lia. }
  assert (Hv : chain' !! S i = Some v).
  { rewrite Heq, lookup_app_r by (rewrite length_take; lia).
    rewrite length_take, Nat.min_l by lia.
    replace (S i - i)%nat with 1%nat by lia. simpl.
    rewrite lookup_drop, Nat.add_0_r. done. }
  repeat split; try done.
  - by exists i, v.
  - intros meta2 mw2.
    destruct (insertByMeta_inserts_one meta2 mw2 chain') as [k [_ Hk]]. eauto.
Qed.

(** C10. An insertion into a non-empty chain that declares [after = X]
    when no entry is named [X] puts the new entry at the very front (index
    0), not at the end. *)
Theorem insertByMeta_after_absent
    (meta : MiddlewareMetadata) (mw : MiddlewareType) (chain : list OrderMiddleware)
    (X : string) :
  chain ≠ [] →
  declares (after meta) X →
  (∀ v, v ∈ chain → name v ≠ Some X) →
  insertByMeta meta mw chain = mkOrder (meta_name meta) mw :: chain.
Proof.
  intros Hne [Hafter HX] Habsent. unfold insertByMeta.
  assert (0 < length chain)%nat by (destruct chain; [done | simpl; lia]).
  destruct (Z.ltb_spec (Z.of_nat (length chain)) 1); [lia|].
  rewrite Hafter. simpl. rewrite HX.
  rewrite (findIndex_none (named (Some X)) chain).
  2:{ intros v Hv. apply named_miss. by apply Habsent. }
  change (-1 + 1) with 0. simpl.
  destruct (Z.leb_spec (Z.of_nat (length chain)) 0); [lia|].
  unfold splice. simpl. by rewrite drop_0.
Qed.

Section UseFacts.

Variable Middleware : MiddlewareType.
Variable isClass : MiddlewareType → bool.
Variable getTokenImpl : MiddlewareType → option MiddlewareType.
Variable getTypeMetadata : MiddlewareType → list MiddlewareMetadata.

#[local] Abbreviation metaOf := (getMiddlewareMeta isClass getTokenImpl getTypeMetadata).

(** [useBefore] with a match hands [insertByMeta] a [before] and never an
    [after]. *)
Lemma useBefore_inserts (mw m : MiddlewareType) (orders : list OrderMiddleware)
    (cur bmeta : MiddlewareMetadata) :
  truthyMiddleware (Some m) = true →
  metaOf mw = Some cur → metaOf m = Some bmeta →
  useBefore Middleware isClass getTokenImpl getTypeMetadata mw (Some m) orders
    = Ok (insertByMeta (mkMeta (meta_name cur) (meta_name bmeta) None) mw orders).
Proof.
  intros Hm Hcur Hb. unfold useBefore. rewrite Hm. simpl. by rewrite Hcur, Hb.
Qed.

(** Through [useBefore] the new entry lands immediately before the first
    entry that bears the name of the match. *)
Lemma useBefore_before_present (mw m : MiddlewareType) (orders : list OrderMiddleware)
    (cur bmeta : MiddlewareMetadata) (X : string) (i : nat) (v : OrderMiddleware) :
  truthyMiddleware (Some m) = true →
  metaOf mw = Some cur → metaOf m = Some bmeta →
  meta_name bmeta = Some X → JS.truthy X = true →
  orders !! i = Some v → name v = Some X →
  (∀ j u, (j < i)%nat → orders !! j = Some u → name u ≠ Some X) →
  useBefore Middleware isClass getTokenImpl getTypeMetadata mw (Some m) orders
    = Ok (take i orders ++ mkOrder (meta_name cur) mw :: drop i orders).
Proof.
  intros Hm Hcur Hb Hname HX Hi Hv Hfirst.
  rewrite (useBefore_inserts mw m orders cur bmeta Hm Hcur Hb). f_equal.
  unfold insertByMeta. pose proof (lookup_lt_Some _ _ _ Hi) as Hlt.
  destruct (Z.ltb_spec (Z.of_nat (length orders)) 1); [lia|].
  simpl. rewrite Hname. simpl. rewrite HX.
  rewrite (findIndex_first _ orders i v Hi (named_hit X v Hv HX)).
  2:{ intros j u Hj Hu. apply named_miss. by apply (Hfirst j). }
  destruct (Z.ltb_spec (Z.of_nat i) 0); [lia|].
  destruct (Z.leb_spec (Z.of_nat (length orders)) (Z.of_nat i)); [lia|].
  simpl. unfold splice. by rewrite Nat2Z.id.
Qed.

(** [useAfter] with a match hands [insertByMeta] an [after] and never a
    [before]. *)
Lemma useAfter_inserts (mw m : MiddlewareType) (orders : list OrderMiddleware)
    (cur afmeta : MiddlewareMetadata) :
  truthyMiddleware (Some m) = true →
  metaOf mw = Some cur → metaOf m = Some afmeta →
  useAfter Middleware isClass getTokenImpl getTypeMetadata mw (Some m) orders
    = Ok (insertByMeta (mkMeta (meta_name cur) None (meta_name afmeta)) mw orders).
Proof.
  intros Hm Hcur Ha. unfold useAfter. rewrite Hm. simpl. by rewrite Hcur, Ha.
Qed.

End UseFacts.

End ChainFacts.

(** C9, as amended, run on the chain a, b: an entry declared before b
    lands between them, and a later insertion before b then separates it
    from b again. *)
Lemma insertByMeta_before_present_witness :
  MiddlewareChain.insertByMeta cBeforeB (MiddlewareChain.MwString "c") chainAB
    = take 1 chainAB ++ entryC :: drop 1 chainAB ∧
  MiddlewareChain.insertByMeta cBeforeB (MiddlewareChain.MwString "c") chainAB !! 1%nat
    = Some entryC ∧
  MiddlewareChain.insertByMeta cBeforeB (MiddlewareChain.MwString "c") chainAB !! 2%nat
    = Some (entryNamed "b") ∧
  MiddlewareChain.immediatelyBefore entryC "b"
    (MiddlewareChain.insertByMeta cBeforeB (MiddlewareChain.MwString "c") chainAB) ∧
  ∀ meta2 mw2, ∃ k,
    MiddlewareChain.insertByMeta meta2 mw2
      (MiddlewareChain.insertByMeta cBeforeB (MiddlewareChain.MwString "c") chainAB)
    = take k (MiddlewareChain.insertByMeta cBeforeB (MiddlewareChain.MwString "c") chainAB)
      ++ MiddlewareChain.mkOrder (MiddlewareChain.meta_name meta2) mw2
      :: drop k (MiddlewareChain.insertByMeta cBeforeB (MiddlewareChain.MwString "c") chainAB).
Proof.
  apply (insertByMeta_before_present cBeforeB (MiddlewareChain.MwString "c")
           chainAB "b" 1 (entryNamed "b"));
    [split; reflexivity | reflexivity | reflexivity | reflexivity |].
  intros j u Hj Hu. destruct j as [|j]; [|lia].
  injection Hu as <-. discriminate.
Defined.

(** A later insertion does not restore an earlier constraint: after c was
    put before b, putting d before b leaves c no longer next to b. *)
Example insertByMeta_not_retroactive :
  MiddlewareChain.insertByMeta (MiddlewareChain.mkMeta (Some "d") (Some "b") None)
    (MiddlewareChain.MwString "d")
    (MiddlewareChain.insertByMeta cBeforeB (MiddlewareChain.MwString "c") chainAB)
  = [entryNamed "a"; entryC; entryNamed "d"; entryNamed "b"].
Proof. reflexivity. Qed.

(** C9 as stated fails: an insertion that declares before = a and also
    after = b, made on the chain a, b, is appended at the end; it does not
    stand immediately before a. *)
Lemma insertByMeta_before_and_after_counterexample :
  MiddlewareChain.declares (MiddlewareChain.before cBeforeAAfterB) "a" ∧
  chainAB !! 0%nat = Some (entryNamed "a") ∧
  MiddlewareChain.insertByMeta cBeforeAAfterB (MiddlewareChain.MwString "c") chainAB
    = [entryNamed "a"; entryNamed "b"; entryC] ∧
  ¬ MiddlewareChain.immediatelyBefore entryC "a"
      (MiddlewareChain.insertByMeta cBeforeAAfterB (MiddlewareChain.MwString "c") chainAB).
Proof.
  repeat split.
  intros (i & v & Hi & Hv & Hname).
  change (MiddlewareChain.insertByMeta cBeforeAAfterB (MiddlewareChain.MwString "c") chainAB)
    with [entryNamed "a"; entryNamed "b"; entryC] in *.
  destruct i as [|[|[|i]]]; simpl in *; try discriminate.
Qed.

(** C10 run on the chain a, b: an entry declared after the absent name z
    goes to the front. *)
Lemma insertByMeta_after_absent_witness :
  MiddlewareChain.insertByMeta cAfterZ (MiddlewareChain.MwString "c") chainAB
  = entryC :: chainAB.
Proof.
  apply (insertByMeta_after_absent cAfterZ (MiddlewareChain.MwString "c") chainAB "z");
    [discriminate | split; reflexivity |].
  intros v Hv. unfold chainAB in Hv.
  repeat (apply elem_of_cons in Hv as [->|Hv]; [discriminate|]).
  by apply elem_of_nil in Hv.
Defined.

(** The same through [useAfter] with string tokens. *)
Example useAfter_absent_front :
  MiddlewareChain.useAfter (MiddlewareChain.MwObject "Middleware")
    noClass noImpl noTypeMetadata
    (MiddlewareChain.MwString "c") (Some (MiddlewareChain.MwString "z")) chainAB
  = Ok (entryNamed "c" :: chainAB).
Proof. reflexivity. Qed.

(** And [useBefore] with string tokens puts c immediately before b. *)
Example useBefore_present :
  MiddlewareChain.useBefore (MiddlewareChain.MwObject "Middleware")
    noClass noImpl noTypeMetadata
    (MiddlewareChain.MwString "c") (Some (MiddlewareChain.MwString "b")) chainAB
  = Ok [entryNamed "a"; entryNamed "c"; entryNamed "b"].
Proof. reflexivity. Qed.

(** * Further properties of the route matcher *)

Lemma index_zero_prefix (s1 s2 : string) :
  String.index 0 s1 s2 = Some 0%nat ↔ String.prefix s1 s2 = true.
Proof.
  destruct s2 as [|b s2]; simpl.
  - destruct s1; simpl; split; intros; congruence.
  - destruct s1 as [|a s1].
    + by simpl.
    + change (String.prefix (String a s1) (String b s2))
        with (if Ascii.ascii_dec a b then String.prefix s1 s2 else false).
      destruct (Ascii.ascii_dec a b); [destruct (String.prefix s1 s2) eqn:Hp|].
      * done.
      * split; [|done]. destruct (String.index 0 (String a s1) s2); discriminate.
      * split; [|done]. destruct (String.index 0 (String a s1) s2); discriminate.
Qed.

Lemma append_cons (a : ascii) (s t : string) :
  String a s +:+ t = String a (s +:+ t).
Proof. reflexivity. Qed.

Lemma append_empty (s : string) : s +:+ "" = s.
Proof. induction s as [|a s IH]; [done|]. by rewrite append_cons, IH. Qed.

Lemma length_append (s t : string) :
  String.length (s +:+ t) = (String.length s + String.length t)%nat.
Proof. induction s as [|a s IH]; [done|]. rewrite append_cons. simpl. by rewrite IH. Qed.

Lemma prefix_app_iff (s1 s2 : string) :
  String.prefix s1 s2 = true ↔ ∃ rest, s2 = s1 +:+ rest.
Proof.
  revert s2. induction s1 as [|a s1 IH]; intros s2.
  - split; [intros _; by exists s2 | intros _; by destruct s2].
  - destruct s2 as [|b s2]; simpl.
    + split; [done | intros [rest Hrest]; rewrite append_cons in Hrest; discriminate].
    + destruct (Ascii.ascii_dec a b) as [->|Hne].
      * rewrite IH. split; intros [rest Hrest]; exists rest;
          rewrite append_cons in *; congruence.
      * split; [done | intros [rest Hrest]; rewrite append_cons in Hrest; congruence].
Qed.

Lemma indexOf_zero_iff (s pat : string) :
  (JS.indexOf s pat =? 0) = true ↔ ∃ rest, s = pat +:+ rest.
Proof.
  rewrite <- prefix_app_iff, <- index_zero_prefix. unfold JS.indexOf.
  destruct (String.index 0 pat s) as [n|]; rewrite Z.eqb_eq; [|done].
  split; [intros Hn; f_equal; lia | by intros [= ->]].
Qed.

Section MatcherMore.

Context `{Externals}.

(** X1. Whatever the matcher returns is an entry of the bucket it was
    given, and it is either an exact match, or a REST match found when the
    bucket has no exact match at all. *)
Theorem getRouteMetaData_sound
    (this : ControllerRoute) (ctx_url : string) (d : Decorator) (r : RouteMetadata) :
  getRouteMetaData this ctx_url d = Some r →
  r ∈ candidates this d ∧
  (routeOf r = routPathOf this ctx_url ∨
   ((∀ e, e ∈ candidates this d → routeOf e ≠ routPathOf this ctx_url) ∧
    restMatch (routPathOf this ctx_url) r = true)).
Proof.
  unfold getRouteMetaData, candidates.
  set (routPath := routPathOf this ctx_url).
  set (all := sortByRoute (flattenMethods (routeMetadata (controller this) d))).
  destruct (find (λ r0, String.eqb (routeOf r0) routPath) all) as [meta|] eqn:Hexact.
  - intros [= ->]. destruct (find_elem _ _ _ Hexact) as [Hin Heq].
    split; [by apply sortByRoute_elem|]. left. by apply String.eqb_eq.
  - intros Hrest. destruct (find_elem _ _ _ Hrest) as [Hin Hm].
    split; [by apply sortByRoute_elem|]. right. split; [|done].
    intros e He. apply String.eqb_neq.
    apply (find_none _ _ Hexact). apply list_elem_of_In. by apply sortByRoute_elem.
Qed.

(** X2. The matcher returns nothing exactly when no entry of the bucket is
    an exact match and none is a REST match. *)
Theorem getRouteMetaData_None_iff
    (this : ControllerRoute) (ctx_url : string) (d : Decorator) :
  getRouteMetaData this ctx_url d = None ↔
  ∀ e, e ∈ candidates this d →
       routeOf e ≠ routPathOf this ctx_url ∧
       restMatch (routPathOf this ctx_url) e = false.
Proof.
  unfold getRouteMetaData, candidates.
  set (routPath := routPathOf this ctx_url).
  set (all := sortByRoute (flattenMethods (routeMetadata (controller this) d))).
  split.
  - destruct (find (λ r0, String.eqb (routeOf r0) routPath) all) eqn:Hexact; [done|].
    intros Hrest e He.
    assert (In e all) by (apply list_elem_of_In; by apply sortByRoute_elem).
    split; [apply String.eqb_neq; by apply (find_none _ _ Hexact) |].
    by apply (find_none _ _ Hrest).
  - intros Hall.
    rewrite (find_None_iff (λ r0, String.eqb (routeOf r0) routPath) all).
    + apply find_None_iff. intros x Hx.
      apply (proj1 (sortByRoute_elem _ _)) in Hx. by destruct (Hall x Hx).
    + intros x Hx. apply (proj1 (sortByRoute_elem _ _)) in Hx.
      apply String.eqb_neq. by destruct (Hall x Hx).
Qed.

End MatcherMore.

(** X3. A pattern is a REST match for a path exactly when it contains the
    marker [/:] and the path is its static prefix followed by at least one
    more character; the prefix test does not look at segment boundaries. *)
Theorem restMatch_iff (routPath : string) (r : RouteMetadata) :
  restMatch routPath r = true ↔
  isRestUri (routeOf r) = true ∧
  ∃ rest, rest ≠ "" ∧ routPath = staticPrefix (routeOf r) +:+ rest.
Proof.
  unfold restMatch. destruct (isRestUri (routeOf r)); [|split; [done | by intros [? _]]].
  rewrite andb_true_iff, negb_true_iff, String.eqb_neq, indexOf_zero_iff.
  split.
  - intros [Hne [rest ->]]. split; [done|]. exists rest. split; [|done].
    intros ->. apply Hne. by rewrite append_empty.
  - intros [_ [rest [Hrest ->]]]. split; [|by exists rest].
    intros Heq. apply Hrest.
    assert (Hlen : String.length (staticPrefix (routeOf r))
                   = String.length (staticPrefix (routeOf r) +:+ rest)) by congruence.
    rewrite length_append in Hlen. destruct rest; [done | simpl in Hlen; lia].
Qed.

Example restMatch_ignores_segments :
  restMatch "/usersX" (routeEntry "/users/:id" "show") = true ∧
  restMatch "/users" (routeEntry "/users/:id" "show") = false.
Proof. split; reflexivity. Qed.

(** X1 run on the users controller: GET /users/42 has no exact match and
    the entry returned is a REST match of the bucket. *)
Lemma getRouteMetaData_sound_witness :
  routeEntry "/users/:id/orders" "orders" ∈ candidates usersRoute Get ∧
  (routeOf (routeEntry "/users/:id/orders" "orders")
     = routPathOf (H := plainExternals) usersRoute "/users/42" ∨
   ((∀ e, e ∈ candidates usersRoute Get →
          routeOf e ≠ routPathOf (H := plainExternals) usersRoute "/users/42") ∧
    restMatch (routPathOf (H := plainExternals) usersRoute "/users/42")
      (routeEntry "/users/:id/orders" "orders") = true)).
Proof.
  apply (getRouteMetaData_sound (H := plainExternals) usersRoute "/users/42" Get).
  reflexivity.
Defined.

(** * Further properties of the CORS handler *)

Section CorsMore.

Context `{Externals}.

(** Splits on every conditional left in a run of [invokeOption]. *)
Ltac split_ifs :=
  repeat (match goal with
          | |- context [if ?b then _ else _] => destruct b eqn:?
          end; run).

(** X4. Without an Origin header the handler only records Vary: Origin and
    hands over to the continuation: no CORS header is set and the matcher
    is not consulted. *)
Theorem invokeOption_no_origin
    (this : ControllerRoute) (container : IContainer) (next : Next) (w : World) :
  JS.truthy (get_header (ctx w) "Origin") = false →
  invokeOption this container next w
    = callNext next (mkWorld (add_vary "Origin" (ctx w)) (trace w)).
Proof.
  intros Horigin. unfold invokeOption. run. by rewrite Horigin.
Qed.

(** X5. An OPTIONS request with an Origin but without the header
    Access-Control-Request-Method is not a preflight: only Vary: Origin is
    recorded and the continuation runs. *)
Theorem invokeOption_not_preflight
    (this : ControllerRoute) (container : IContainer) (next : Next) (w : World) :
  JS.truthy (get_header (ctx w) "Origin") = true →
  methodIsNotOPTIONS (ctx w) = false →
  JS.truthy (get_header (ctx w) "Access-Control-Request-Method") = false →
  invokeOption this container next w
    = callNext next (mkWorld (add_vary "Origin" (ctx w)) (trace w)).
Proof.
  intros Horigin Hmethod Hreq. unfold invokeOption. run.
  by rewrite Horigin, Hmethod, Hreq.
Qed.

(** X6. A preflight whose target has no route, or whose route has neither
    handler-level nor controller-level CORS metadata, is passed on
    unanswered: after the matcher ran, the continuation gets a context
    with Vary: Origin and no CORS header added. *)
Theorem invokeOption_preflight_unresolved
    (this : ControllerRoute) (container : IContainer) (next : Next) (w : World) :
  let c := ctx w in
  let requested := get_header c "Access-Control-Request-Method" in
  let d := getDecoratorByMethod (Some (MNumber (parseRequestMethod requested))) in
  JS.truthy (get_header c "Origin") = true →
  methodIsNotOPTIONS c = false →
  JS.truthy requested = true →
  (∀ meta, getRouteMetaData this (ctx_url c) d = Some meta →
           resolveCors (controller this) (propertyKey meta) = []) →
  invokeOption this container next w
    = callNext next (mkWorld (add_vary "Origin" c) (trace w ++ [EvGetRouteMetaData d])).
Proof.
  intros c requested d Horigin Hmethod Hreq Hnone. unfold invokeOption. run.
  fold c. rewrite Horigin. run. rewrite Hmethod. fold requested. rewrite Hreq. run.
  fold d. destruct (getRouteMetaData this (ctx_url c) d) as [meta|] eqn:Hmeta; [|done].
  rewrite (Hnone meta eq_refl). by destruct (JS.truthy (propertyKey meta)).
Qed.

#[local] Arguments assignCors : simpl never.

(** Runs [invokeOption] into the branch that answers a preflight. *)
Ltac enter_answer Hans :=
  destruct Hans as (Horigin & Hmethod & Hreq & Hmeta & Hkey & Hhead);
  unfold invokeOption; run; rewrite Horigin; run; rewrite Hmethod, Hreq; run;
  rewrite Hmeta, Hkey;
  match goal with
  | |- context [resolveCors ?ctl ?key] =>
      destruct (resolveCors ctl key) as [|first' rest'] eqn:Hcors;
      [discriminate Hhead | injection Hhead as ->]
  end;
  rewrite StringOfNumber_truthy; run.


(** X8. An answered preflight always carries a non-empty
    Access-Control-Allow-Methods; with no [allowMethods] configured it is
    exactly GET,HEAD,PUT,POST,DELETE,PATCH. *)
Theorem invokeOption_preflight_allow_methods
    (this : ControllerRoute) (container : IContainer) (next : Next) (w : World)
    (meta : RouteMetadata) (first : CorsMetadata) :
  answered this w meta first →
  ∃ w' v, invokeOption this container next w = (Ok tt, w') ∧
          ctx_response_headers (ctx w') !! "Access-Control-Allow-Methods" = Some v ∧
          v ≠ "" ∧
          (allowMethods (mergedCors container first) = None →
           v = "GET,HEAD,PUT,POST,DELETE,PATCH").
Proof.
  intros Hans. enter_answer Hans. fold (mergedCors container first).
  set (configured := match allowMethods (mergedCors container first) with
                     | Some (inr l) => Some (String.concat "," (map methodToString l))
                     | Some (inl s) => Some s
                     | None => None
                     end).
  assert (Htruthy : JS.truthy (orElse configured "GET,HEAD,PUT,POST,DELETE,PATCH") = true).
  { unfold orElse. destruct configured as [s|]; [|done].
    by destruct (JS.truthy s) eqn:Hs. }
  rewrite Htruthy. run.
  assert (Hne : orElse configured "GET,HEAD,PUT,POST,DELETE,PATCH" ≠ "").
  { intros Heq. by rewrite Heq in Htruthy. }
  assert (Hdefault : allowMethods (mergedCors container first) = None →
            orElse configured "GET,HEAD,PUT,POST,DELETE,PATCH"
              = "GET,HEAD,PUT,POST,DELETE,PATCH").
  { intros Hnone. unfold configured. by rewrite Hnone. }
  clearbody configured.
  split_ifs; (eexists; eexists; split; [reflexivity|]); cbn;
    rewrite ?lookup_insert_ne by done; (split; [apply lookup_insert_eq | done]).
Qed.

(** X9. Access-Control-Allow-Headers of an answered preflight: the
    configured headers when there are any, else the request's
    Access-Control-Request-Headers echoed, else the header is left as it
    was. *)
Theorem invokeOption_preflight_allow_headers
    (this : ControllerRoute) (container : IContainer) (next : Next) (w : World)
    (meta : RouteMetadata) (first : CorsMetadata) :
  answered this w meta first →
  let configured := configuredHeaders (mergedCors container first) in
  let requested := get_header (ctx w) "Access-Control-Request-Headers" in
  ∃ w', invokeOption this container next w = (Ok tt, w') ∧
        ctx_response_headers (ctx w') !! "Access-Control-Allow-Headers"
          = if JS.truthyOpt configured then configured
            else if JS.truthy requested then Some requested
            else ctx_response_headers (ctx w) !! "Access-Control-Allow-Headers".
Proof.
  intros Hans configured requested. enter_answer Hans.
  fold (mergedCors container first).
  change (match allowHeaders (mergedCors container first) with
          | Some (inr l) => Some (String.concat "," l)
          | Some (inl s) => Some s
          | None => None
          end) with configured.
  fold requested.
  destruct (JS.truthyOpt configured) eqn:Hconf; cbn.
  - destruct configured as [s|]; [|done]. cbn in *. rewrite Hconf.
    split_ifs; (eexists; split; [reflexivity|]); cbn; apply lookup_insert_eq.
  - destruct (JS.truthy requested) eqn:Hreq'; run;
      split_ifs; (eexists; split; [reflexivity|]); cbn;
      rewrite ?lookup_insert_ne by done; done || apply lookup_insert_eq.
Qed.

(** X10. For a request that is not OPTIONS only the global options count:
    whatever the route, the continuation is called on a context that
    carries Access-Control-Allow-Origin with the request's origin;
    Access-Control-Allow-Credentials is set when [credentials] is [true]
    in the global options and is otherwise left as it was. *)
Theorem invokeOption_simple_request
    (container : IContainer) (next : Next) (w : World) :
  let options := default emptyCors (corsOptions container) in
  JS.truthy (get_header (ctx w) "Origin") = true →
  methodIsNotOPTIONS (ctx w) = true →
  keepHeadersOnError options ≠ Some true →
  ∃ c', (∀ this, invokeOption this container next w
                 = callNext next (mkWorld c' (trace w))) ∧
        ctx_response_headers c' !! "Access-Control-Allow-Origin"
          = Some (get_header (ctx w) "Origin") ∧
        ctx_response_headers c' !! "Access-Control-Allow-Credentials"
          = (if bool_decide (credentials options = Some true) then Some "true"
             else ctx_response_headers (ctx w) !! "Access-Control-Allow-Credentials") ∧
        ctx_status c' = ctx_status (ctx w).
Proof.
  intros options Horigin Hmethod Hkeep.
  unfold invokeOption, setRecorded. run. rewrite Horigin, Hmethod. run.
  fold options. rewrite (bool_decide_false _ Hkeep). cbn.
  split_ifs; (eexists; split; [intros this; reflexivity|]); cbn;
    repeat first [rewrite lookup_insert_eq | rewrite lookup_insert_ne by done];
    done.
Qed.

(** X11. With [keepHeadersOnError] set in the global options, a failure of
    the rest of the pipeline on a request that is not OPTIONS is raised
    again as the same kind of error, and its headers now hold the CORS
    headers set before, over the headers it already had. *)
Theorem invokeOption_keeps_headers_on_error
    (this : ControllerRoute) (container : IContainer) (next : Next) (w : World)
    (err : Fault) :
  let options := default emptyCors (corsOptions container) in
  JS.truthy (get_header (ctx w) "Origin") = true →
  methodIsNotOPTIONS (ctx w) = true →
  keepHeadersOnError options = Some true →
  (∀ c, fst (next c) = Throw err) →
  ∃ err' w', invokeOption this container next w = (Throw err', w') ∧
             kind err' = kind err ∧
             headers err' !! "Access-Control-Allow-Origin"
               = Some (get_header (ctx w) "Origin") ∧
             ∀ k, is_Some (headers err !! k) → is_Some (headers err' !! k).
Proof.
  intros options Horigin Hmethod Hkeep Hnext.
  unfold invokeOption, setRecorded. run. rewrite Horigin, Hmethod. run.
  fold options. rewrite Hkeep, (bool_decide_true (Some true = Some true)) by done. cbn.
  assert (Hunion : ∀ hs : gmap string string,
    hs !! "Access-Control-Allow-Origin" = Some (get_header (ctx w) "Origin") →
    (hs ∪ headers err) !! "Access-Control-Allow-Origin"
      = Some (get_header (ctx w) "Origin") ∧
    ∀ k, is_Some (headers err !! k) → is_Some ((hs ∪ headers err) !! k)).
  { intros hs Hhs. split; [by apply lookup_union_Some_l|].
    intros k [v Hv]. destruct (hs !! k) as [u|] eqn:Hu.
    - exists u. by apply lookup_union_Some_l.
    - exists v. rewrite (lookup_union_r hs (headers err) k Hu). exact Hv. }
  split_ifs;
    match goal with
    | |- context [next ?c] =>
        specialize (Hnext c); destruct (next c) as [r c0]; cbn in Hnext; subst r
    end;
    (eexists _, _; split; [reflexivity|]); cbn; (split; [done|]);
    apply Hunion;
    repeat first [rewrite lookup_insert_eq | rewrite lookup_insert_ne by done];
    done.
Qed.

End CorsMore.

(** X4 run on a request without headers. *)
Lemma invokeOption_no_origin_witness :
  invokeOption (H := plainExternals) usersRoute greeting idleNext getNothing
    = callNext idleNext (mkWorld (add_vary "Origin" (ctx getNothing)) (trace getNothing)).
Proof.
  apply (invokeOption_no_origin (H := plainExternals) usersRoute greeting idleNext
           getNothing).
  reflexivity.
Defined.

(** X5 run on an OPTIONS request that only carries an Origin. *)
Lemma invokeOption_not_preflight_witness :
  invokeOption (H := plainExternals) itemsRoute greeting idleNext
      optionsWithoutRequestMethod
    = callNext idleNext
        (mkWorld (add_vary "Origin" (ctx optionsWithoutRequestMethod))
                 (trace optionsWithoutRequestMethod)).
Proof.
  apply (invokeOption_not_preflight (H := plainExternals) itemsRoute greeting idleNext
           optionsWithoutRequestMethod); reflexivity.
Defined.

(** X6 run on a preflight for POST /items against the users controller,
    which has no POST route. *)
Lemma invokeOption_preflight_unresolved_witness :
  invokeOption (H := plainExternals) usersRoute greeting idleNext (startOf preflightRequest)
    = callNext idleNext
        (mkWorld (add_vary "Origin" preflightRequest) [EvGetRouteMetaData Post]).
Proof.
  apply (invokeOption_preflight_unresolved (H := plainExternals) usersRoute greeting
           idleNext (startOf preflightRequest)); reflexivity.
Defined.

Lemma preflight_answered :
  answered (H := plainExternals) itemsRoute (startOf preflightRequest)
    (mkRouteMetadata (Some "/items") (Some RequestMethod.Post) "create" None) itemsCors.
Proof. repeat split. Qed.


(** X8 run on the same preflight: no [allowMethods] anywhere, so the
    default list is sent. *)
Lemma invokeOption_preflight_allow_methods_witness :
  ∃ w' v, invokeOption (H := plainExternals) itemsRoute greeting idleNext
            (startOf preflightRequest) = (Ok tt, w') ∧
          ctx_response_headers (ctx w') !! "Access-Control-Allow-Methods" = Some v ∧
          v ≠ "" ∧
          (allowMethods (mergedCors greeting itemsCors) = None →
           v = "GET,HEAD,PUT,POST,DELETE,PATCH").
Proof.
  exact (invokeOption_preflight_allow_methods (H := plainExternals) itemsRoute greeting
           idleNext (startOf preflightRequest) _ itemsCors preflight_answered).
Defined.

(** X9 run on the same preflight: the configured header X-Foo is sent. *)
Lemma invokeOption_preflight_allow_headers_witness :
  ∃ w', invokeOption (H := plainExternals) itemsRoute greeting idleNext
          (startOf preflightRequest) = (Ok tt, w') ∧
        ctx_response_headers (ctx w') !! "Access-Control-Allow-Headers" = Some "X-Foo".
Proof.
  exact (invokeOption_preflight_allow_headers (H := plainExternals) itemsRoute greeting
           idleNext (startOf preflightRequest) _ itemsCors preflight_answered).
Defined.

(** X10 run on GET /items with an Origin and no global options. *)
Lemma invokeOption_simple_request_witness :
  ∃ c', (∀ this, invokeOption (H := plainExternals) this greeting idleNext getWithOrigin
                 = callNext idleNext (mkWorld c' (trace getWithOrigin))) ∧
        ctx_response_headers c' !! "Access-Control-Allow-Origin" = Some "https://a.com" ∧
        ctx_response_headers c' !! "Access-Control-Allow-Credentials" = None ∧
        ctx_status c' = None.
Proof.
  apply (invokeOption_simple_request (H := plainExternals) greeting idleNext getWithOrigin);
    [reflexivity | reflexivity | discriminate].
Defined.

(** X11 run on GET /items with a failing pipeline. *)
Lemma invokeOption_keeps_headers_on_error_witness :
  ∃ err' w', invokeOption (H := plainExternals) itemsRoute keeping failingNext
               getWithOrigin = (Throw err', w') ∧
             kind err' = OtherError "down" ∧
             headers err' !! "Access-Control-Allow-Origin" = Some "https://a.com" ∧
             ∀ k, is_Some (headers downstreamError !! k) → is_Some (headers err' !! k).
Proof.
  apply (invokeOption_keeps_headers_on_error (H := plainExternals) itemsRoute keeping
           failingNext getWithOrigin downstreamError); reflexivity.
Defined.

(** * Further properties of the dispatcher *)

(** A response that is not a result value is written without calling
    anyone and without a fault. *)
Lemma sendResponse_plain (contentType : option string) (response : Response)
    (c : Context) (t : list Event) :
  (∀ r, response ≠ RResult r) →
  sendResponse contentType response (mkWorld c t)
    = (Ok tt, mkWorld (responded contentType response c) t).
Proof.
  intros Hplain. unfold responded.
  destruct response; try done; by contradiction (Hplain r).
Qed.

Section DispatcherMore.

Context `{Externals}.

(** X12. A dispatch that passes every gate calls its collaborators in one
    order: the matcher, the controller lookup, [isAuth] only when a service
    is registered and the handler is marked, [getMethodParameters], the
    binder, the handler once with the bound arguments; the response is
    written and then the continuation runs. *)
Theorem navigating_success
    (this : ControllerRoute) (container : IContainer) (next : Next) (w : World)
    (meta : RouteMetadata) (args : list AsyncParamProvider)
    (response : Response) (c1 : Context) :
  let d := getDecoratorByMethod (ctx_method (ctx w)) in
  let key := propertyKey meta in
  d ≠ Options →
  getRouteMetaData this (ctx_url (ctx w)) d = Some meta →
  JS.truthy key = true →
  authorized this container key →
  createProvider container meta (getMethodParameters container key) (ctx w) = Ok args →
  invokeMethod container key args (ctx w) = (Ok response, c1) →
  (∀ r, response ≠ RResult r) →
  navigating this container next w
    = callNext next
        (mkWorld (responded (contentType meta) response c1)
           (trace w
            ++ [EvGetRouteMetaData d; EvGetController]
            ++ (if hasAuthorization container
                   && authorizationMetadata (controller this) key
                then [EvIsAuth] else [])
            ++ [EvGetMethodParameters key; EvCreateProvider key; EvInvoke key args])).
Proof.
  intros d key Hd Hmeta Hkey Hauth Hargs Hcall Hplain.
  unfold navigating, dispatch, invoke, bindParameters, authorized in *. run. fold d.
  rewrite bool_decide_true by done. run. rewrite Hmeta. fold key. rewrite Hkey. run.
  destruct (hasAuthorization container) eqn:Hhas;
    [destruct (authorizationMetadata (controller this) key) eqn:Hmark|]; run;
    rewrite ?(Hauth eq_refl eq_refl); run; rewrite Hargs; run; rewrite Hcall;
    rewrite sendResponse_plain by done; cbn; by rewrite <- !app_assoc.
Qed.

(** X13. With no authorization service registered in the container the
    authorization marks of the handlers play no part: the dispatch is the
    same whatever handlers are marked. *)
Theorem navigating_without_authorization_service
    (this : ControllerRoute) (container : IContainer) (next : Next) (w : World)
    (marks : string → bool) :
  hasAuthorization container = false →
  navigating (withAuthorizationMetadata this marks) container next w
    = navigating this container next w.
Proof.
  intros Hhas. unfold navigating, dispatch, invoke. run.
  destruct (bool_decide (getDecoratorByMethod (ctx_method (ctx w)) ≠ Options)); [|done].
  run. change (getRouteMetaData (withAuthorizationMetadata this marks))
         with (getRouteMetaData this).
  destruct (getRouteMetaData this (ctx_url (ctx w))
              (getDecoratorByMethod (ctx_method (ctx w)))) as [meta|]; [|done].
  destruct (JS.truthy (propertyKey meta)); [|done]. run. by rewrite Hhas.
Qed.

(** X14. A matched entry whose handler key is empty counts as no match:
    the answer is 404 and not even the controller is looked up. *)
Theorem navigating_empty_property_key
    (this : ControllerRoute) (container : IContainer) (next : Next) (w : World)
    (meta : RouteMetadata) :
  let d := getDecoratorByMethod (ctx_method (ctx w)) in
  d ≠ Options →
  getRouteMetaData this (ctx_url (ctx w)) d = Some meta →
  propertyKey meta = "" →
  ∃ w', navigating this container next w = (Ok tt, w') ∧
        ctx_status (ctx w') = Some 404 ∧
        trace w' = trace w ++ [EvGetRouteMetaData d].
Proof.
  intros d Hd Hmeta Hkey. unfold navigating, dispatch, invoke. run. fold d.
  rewrite bool_decide_true by done. run. rewrite Hmeta, Hkey. run.
  eexists. split; [reflexivity|]. done.
Qed.

End DispatcherMore.

Lemma orElse_truthy (o : option string) (d : string) :
  JS.truthy d = true → JS.truthy (orElse o d) = true.
Proof.
  intros Hd. destruct o as [s|]; simpl; [|done].
  by destruct (JS.truthy s) eqn:Hs.
Qed.

(** X15. A typed array is no Array, so a Buffer or a Uint8Array that a
    handler returns fails the test
    [isArray(response) && response instanceof Uint8Array] and never reaches
    [Buffer.from]: it goes the way of plain objects. A Buffer becomes the
    body as it is, under the declared content type or else
    application/json; a Uint8Array becomes the body as it is and is sent
    as JSON. *)
Theorem sendResponse_typed_array
    (contentType : option string) (bytes : list Z) (w : World) :
  (∃ w', sendResponse contentType (RBuffer bytes) w = (Ok tt, w') ∧
         ctx_body (ctx w') = Some (BBuffer bytes) ∧
         ctx_type (ctx w') = Some (orElse contentType "application/json") ∧
         trace w' = trace w) ∧
  (∃ w', sendResponse contentType (RUint8Array bytes) w = (Ok tt, w') ∧
         ctx_body (ctx w') = Some (BUint8Array bytes) ∧
         ctx_type (ctx w') = Some "application/json" ∧
         trace w' = trace w).
Proof.
  unfold sendResponse, assignBody. run.
  split; (eexists; split; [reflexivity|]); cbn; [|done].
  split; [done|]. split; [|done].
  by rewrite (orElse_truthy contentType "application/json").
Qed.

(** X12 run on GET /users/42 with a handler that returns a plain object. *)
Lemma navigating_success_witness :
  navigating (H := plainExternals) usersRoute
      (containerOf None (Ok (RObject [("id", "42")])) None) idleNext
      (startOf (requestOf (Some (MString "GET")) "/users/42" ∅))
    = callNext idleNext
        (mkWorld (responded None (RObject [("id", "42")])
                    (requestOf (Some (MString "GET")) "/users/42" ∅))
           ([] ++ [EvGetRouteMetaData Get; EvGetController] ++ []
            ++ [EvGetMethodParameters "orders"; EvCreateProvider "orders";
                EvInvoke "orders" []])).
Proof.
  apply (navigating_success (H := plainExternals) usersRoute
           (containerOf None (Ok (RObject [("id", "42")])) None) idleNext
           (startOf (requestOf (Some (MString "GET")) "/users/42" ∅))
           (routeEntry "/users/:id/orders" "orders") [] (RObject [("id", "42")])
           (requestOf (Some (MString "GET")) "/users/42" ∅));
    try reflexivity; discriminate.
Defined.

(** X13 run on the guarded controller with a container that has no
    authorization service: marking every handler changes nothing. *)
Lemma navigating_without_authorization_service_witness :
  navigating (H := plainExternals)
      (withAuthorizationMetadata (mkControllerRoute "" guardedController) (fun _ => true))
      greeting idleNext getSecret
    = navigating (H := plainExternals) (mkControllerRoute "" guardedController)
        greeting idleNext getSecret.
Proof.
  apply (navigating_without_authorization_service (H := plainExternals)
           (mkControllerRoute "" guardedController) greeting idleNext getSecret
           (fun _ => true)).
  reflexivity.
Defined.

(** The guarded handler then runs unchecked. *)
Example navigating_guard_skipped :
  ∃ w', navigating (H := plainExternals) (mkControllerRoute "" guardedController)
          greeting idleNext getSecret = (Ok tt, w') ∧
        ctx_body (ctx w') = Some (BString "hi") ∧
        EvIsAuth ∉ trace w'.
Proof.
  eexists. split; [reflexivity|]. split; [done|]. cbn.
  intros Hin. repeat (apply elem_of_cons in Hin as [Hin|Hin]; [discriminate|]).
  by apply elem_of_nil in Hin.
Qed.

(** X14 run on an entry without handler key. *)
Lemma navigating_empty_property_key_witness :
  ∃ w', navigating (H := plainExternals) (mkControllerRoute "" anonymousController)
          greeting idleNext (startOf (requestOf (Some (MString "GET")) "/anon" ∅))
          = (Ok tt, w') ∧
        ctx_status (ctx w') = Some 404 ∧
        trace w' = [] ++ [EvGetRouteMetaData Get].
Proof.
  apply (navigating_empty_property_key (H := plainExternals)
           (mkControllerRoute "" anonymousController) greeting idleNext
           (startOf (requestOf (Some (MString "GET")) "/anon" ∅))
           (routeEntry "/anon" "")); try reflexivity.
  discriminate.
Defined.

(** * Further properties of the middleware chain *)

Section ChainMore.

Import MiddlewareChain.

(** The index an insertion uses depends on the metadata and on the chain,
    not on the middleware inserted. *)
Lemma insertByMeta_at (meta : MiddlewareMetadata) (chain : list OrderMiddleware) :
  ∃ k, (k ≤ length chain)%nat ∧
       ∀ mw, insertByMeta meta mw chain
             = take k chain ++ mkOrder (meta_name meta) mw :: drop k chain.
Proof.
  assert (Hpush : ∀ mw, chain ++ [mkOrder (meta_name meta) mw]
                  = take (length chain) chain
                    ++ mkOrder (meta_name meta) mw :: drop (length chain) chain).
  { intros mw. by rewrite take_ge, drop_ge by lia. }
  unfold insertByMeta.
  destruct (Z.ltb_spec (Z.of_nat (length chain)) 1); [by exists (length chain)|].
  set (idx := if JS.truthyOpt (after meta)
              then findIndex (named (after meta)) chain + 1
              else if JS.truthyOpt (before meta)
                   then findIndex (named (before meta)) chain
                   else Z.of_nat (length chain)).
  destruct (Z.ltb_spec idx 0); simpl; [by exists (length chain)|].
  destruct (Z.leb_spec (Z.of_nat (length chain)) idx); [by exists (length chain)|].
  exists (Z.to_nat idx). split; [lia | done].
Qed.

(** X16. Every insertion adds exactly one entry, the one made of the
    metadata's name and the middleware, and keeps the entries already
    there in their order. *)
Theorem insertByMeta_grows
    (meta : MiddlewareMetadata) (mw : MiddlewareType) (chain : list OrderMiddleware) :
  length (insertByMeta meta mw chain) = S (length chain) ∧
  insertByMeta meta mw chain ≡ₚ mkOrder (meta_name meta) mw :: chain ∧
  chain `sublist_of` insertByMeta meta mw chain.
Proof.
  destruct (insertByMeta_at meta chain) as (k & Hk & Heq). rewrite (Heq mw).
  split; [|split].
  - rewrite length_app, length_take. simpl. rewrite length_drop. lia.
  - rewrite <- Permutation_middle. by rewrite take_drop.
  - rewrite <- (take_drop k chain) at 1.
    apply sublist_app; [done|]. by apply sublist_cons.
Qed.

(** X17. An insertion that declares [after = X] when the first entry named
    [X] stands at index [i] puts the new entry at index [i + 1], right
    behind it, whatever [before] says. *)
Theorem insertByMeta_after_present
    (meta : MiddlewareMetadata) (mw : MiddlewareType) (chain : list OrderMiddleware)
    (X : string) (i : nat) (v : OrderMiddleware) :
  declares (after meta) X →
  chain !! i = Some v → name v = Some X →
  (∀ j u, (j < i)%nat → chain !! j = Some u → name u ≠ Some X) →
  insertByMeta meta mw chain
    = take (S i) chain ++ mkOrder (meta_name meta) mw :: drop (S i) chain.
Proof.
  intros [Hafter HX] Hi Hname Hfirst.
  pose proof (lookup_lt_Some _ _ _ Hi) as Hlt.
  unfold insertByMeta.
  destruct (Z.ltb_spec (Z.of_nat (length chain)) 1); [lia|].
  rewrite Hafter. simpl. rewrite HX.
  rewrite (findIndex_first _ chain i v Hi (named_hit X v Hname HX)).
  2:{ intros j u Hj Hu. apply named_miss. by apply (Hfirst j). }
  destruct (Z.ltb_spec (Z.of_nat i + 1) 0); [lia|]. simpl.
  destruct (Z.leb_spec (Z.of_nat (length chain)) (Z.of_nat i + 1)).
  - by rewrite take_ge, drop_ge by lia.
  - unfold splice. by replace (Z.to_nat (Z.of_nat i + 1)) with (S i) by lia.
Qed.

(** X18. An insertion without [after] whose [before] is not declared, or
    names no entry of the chain, is appended at the end. *)
Theorem insertByMeta_appends
    (meta : MiddlewareMetadata) (mw : MiddlewareType) (chain : list OrderMiddleware) :
  JS.truthyOpt (after meta) = false →
  (JS.truthyOpt (before meta) = false ∨ ∀ v, v ∈ chain → name v ≠ before meta) →
  insertByMeta meta mw chain = chain ++ [mkOrder (meta_name meta) mw].
Proof.
  intros Hafter Hbefore. unfold insertByMeta.
  destruct (Z.ltb_spec (Z.of_nat (length chain)) 1); [done|].
  rewrite Hafter. destruct (JS.truthyOpt (before meta)) eqn:Htruthy.
  - destruct Hbefore as [|Habsent]; [done|].
    rewrite (findIndex_none (named (before meta)) chain); [done|].
    intros v Hv. unfold named. rewrite bool_decide_false by by apply Habsent.
    apply andb_false_r.
  - destruct (Z.ltb_spec (Z.of_nat (length chain)) 0); [lia|]. simpl.
    by destruct (Z.leb_spec (Z.of_nat (length chain)) (Z.of_nat (length chain))); [|lia].
Qed.

Section UseMore.

Variable Middleware : MiddlewareType.
Variable isClass : MiddlewareType → bool.
Variable getTokenImpl : MiddlewareType → option MiddlewareType.
Variable getTypeMetadata : MiddlewareType → list MiddlewareMetadata.
Variable isToken : MiddlewareType → bool.
Variable isFunction : MiddlewareType → bool.

#[local] Abbreviation metaOf' := (getMiddlewareMeta isClass getTokenImpl getTypeMetadata).
#[local] Abbreviation insert' :=
  (insert Middleware isClass getTokenImpl getTypeMetadata).
#[local] Abbreviation use' :=
  (use Middleware isClass getTokenImpl getTypeMetadata isToken isFunction).

(** X19. [useBefore] and [useAfter] with a match whose metadata, or that
    of the middleware itself, cannot be resolved fail with a TypeError
    and insert nothing. *)
Theorem use_relative_unresolved
    (mw m : MiddlewareType) (orders : list OrderMiddleware) :
  truthyMiddleware (Some m) = true →
  metaOf' mw = None ∨ metaOf' m = None →
  useBefore Middleware isClass getTokenImpl getTypeMetadata mw (Some m) orders
    = Throw (mkFault (OtherError "TypeError") ∅) ∧
  useAfter Middleware isClass getTokenImpl getTypeMetadata mw (Some m) orders
    = Throw (mkFault (OtherError "TypeError") ∅).
Proof.
  intros Hm Hnone. unfold useBefore, useAfter. rewrite Hm. simpl.
  destruct Hnone as [-> | ->]; simpl; [done|].
  by destruct (metaOf' mw).
Qed.

Lemma insert_sublist (mw : MiddlewareType) (orders : list OrderMiddleware) :
  orders `sublist_of` insert' mw orders.
Proof.
  unfold insert. destruct (metaOf' Middleware) as [meta|]; [|done].
  destruct (insertByMeta_at meta orders) as (k & Hk & Heq). rewrite (Heq mw).
  rewrite <- (take_drop k orders) at 1.
  apply sublist_app; [done|]. by apply sublist_cons.
Qed.

(** X20. [use] only adds: the entries present before are all still there
    afterwards, in the same order. *)
Theorem use_sublist (middlewares : list MiddlewareType) (orders : list OrderMiddleware) :
  orders `sublist_of` use' middlewares orders.
Proof.
  unfold use. revert orders.
  induction middlewares as [|mdl middlewares IH]; intros orders; [done|]. simpl.
  etrans; [|apply IH].
  destruct (isToken mdl); [apply insert_sublist|].
  destruct (isFunction mdl); [|done]. by apply sublist_inserts_r.
Qed.

(** X21. Plain functions handed to [use] go to the end of the chain, in
    the order given and without a name, so that [getChain] lists them
    last. *)
Theorem use_functions (middlewares : list MiddlewareType) (orders : list OrderMiddleware) :
  (∀ mdl, mdl ∈ middlewares → isToken mdl = false ∧ isFunction mdl = true) →
  use' middlewares orders = orders ++ map (mkOrder None) middlewares ∧
  getChain (use' middlewares orders) = getChain orders ++ middlewares.
Proof.
  intros Hfun.
  assert (Huse : use' middlewares orders = orders ++ map (mkOrder None) middlewares).
  { unfold use. revert orders.
    induction middlewares as [|mdl middlewares IH]; intros orders; simpl.
    - by rewrite app_nil_r.
    - destruct (Hfun mdl) as [-> ->]; [by constructor|].
      rewrite IH; [by rewrite <- app_assoc|].
      intros m Hm. apply Hfun. by constructor. }
  split; [done|]. rewrite Huse. unfold getChain.
  rewrite map_app, map_map. simpl. by rewrite map_id.
Qed.

(** X22. [insert] reads the metadata off the [Middleware] decorator and
    not off the middleware it inserts: where the new entry goes and what
    name it gets are the same for every middleware. *)
Theorem insert_ignores_middleware (orders : list OrderMiddleware) :
  (∀ mw, insert' mw orders = orders) ∨
  ∃ k n, ∀ mw, insert' mw orders = take k orders ++ mkOrder n mw :: drop k orders.
Proof.
  unfold insert. destruct (metaOf' Middleware) as [meta|]; [|by left].
  destruct (insertByMeta_at meta orders) as (k & Hk & Heq).
  right. by exists k, (meta_name meta).
Qed.

End UseMore.

End ChainMore.

(** * Properties of the parameter binder *)

Lemma append_assoc (s t u : string) : (s +:+ t) +:+ u = s +:+ (t +:+ u).
Proof. induction s as [|a s IH]; [done|]. by rewrite !append_cons, IH. Qed.

Lemma substring_zero (s : string) : String.substring 0 0 s = "".
Proof. by destruct s. Qed.

Lemma substring_app_take (p r : string) :
  String.substring 0 (String.length p) (p +:+ r) = p.
Proof.
  induction p as [|a p IH]; [apply substring_zero|].
  rewrite append_cons. simpl. by rewrite IH.
Qed.

Lemma substring_app_skip (p r : string) :
  String.substring (String.length p) (String.length r) (p +:+ r) = r.
Proof.
  induction p as [|a p IH].
  - change ("" +:+ r) with r. simpl. clear. induction r as [|a r IH]; [done|].
    simpl. by rewrite IH.
  - rewrite append_cons. simpl. apply IH.
Qed.

(** Replacing a leading occurrence of the pattern by nothing leaves the
    rest. *)
Lemma replace_leading (pat rest : string) : JS.replace (pat +:+ rest) pat "" = rest.
Proof.
  unfold JS.replace.
  assert (Hidx : String.index 0 pat (pat +:+ rest) = Some 0%nat).
  { apply index_zero_prefix, prefix_app_iff. by exists rest. }
  rewrite Hidx, substring_zero, length_append. simpl.
  replace (String.length pat + String.length rest - String.length pat)%nat
    with (String.length rest) by lia.
  apply substring_app_skip.
Qed.

Lemma index_slash_none (seg : string) :
  JS.indexOf seg "/" = -1 ↔ String.index 0 "/" seg = None.
Proof.
  unfold JS.indexOf. destruct (String.index 0 "/" seg); split; (done || lia).
Qed.

Lemma index_cons (pat : string) (b : ascii) (s : string) :
  String.index 0 pat (String b s)
    = if String.prefix pat (String b s) then Some 0%nat
      else match String.index 0 pat s with
           | Some n => Some (S n)
           | None => None
           end.
Proof. reflexivity. Qed.

Lemma prefix_char (c a : ascii) (x : string) :
  String.prefix (String c "") (String a x)
    = if Ascii.ascii_dec c a then true else false.
Proof.
  change (String.prefix (String c "") (String a x))
    with (if Ascii.ascii_dec c a then String.prefix "" x else false).
  destruct (Ascii.ascii_dec c a); [by destruct x | done].
Qed.

Lemma index_slash_app (seg t : string) :
  String.index 0 "/" seg = None →
  String.index 0 "/" (seg +:+ String "/" t) = Some (String.length seg).
Proof.
  induction seg as [|a seg IH]; intros Hnone.
  - change ("" +:+ String "/" t) with (String "/" t).
    rewrite index_cons, prefix_char. by destruct (Ascii.ascii_dec "/" "/").
  - rewrite append_cons, index_cons, prefix_char.
    rewrite index_cons, prefix_char in Hnone.
    destruct (Ascii.ascii_dec "/" a); [done|].
    destruct (String.index 0 "/" seg) eqn:Hseg; [done|]. by rewrite IH.
Qed.

Section BinderFacts.

Import ParameterBinder.

Context `{Externals}.

Variable isClass : ParamToken → bool.
Variable isToken : ParamToken → bool.
Variable isFunction : ParamToken → bool.
Variable getPropertyMetadata : ParamToken → list string.
Variable containerGet : ParamToken → Result Instance.
Variable describe : Fault → string.

#[local] Abbreviation isBase := (isBaseType isToken isFunction).
#[local] Abbreviation build := (instantiate getPropertyMetadata containerGet).
#[local] Abbreviation one :=
  (bindOne isClass isToken isFunction getPropertyMetadata containerGet describe).
#[local] Abbreviation from :=
  (bindFrom isClass isToken isFunction getPropertyMetadata containerGet describe).
#[local] Abbreviation create :=
  (ParameterBinder.createProvider isClass isToken isFunction getPropertyMetadata
     containerGet describe).
#[local] Abbreviation canBind := (bindable isClass isToken isFunction).

(** What one step of the binder can do. *)
Lemma bindOne_cases (body : gmap string string) (paramVal : option string)
    (p : ParamToken) (idx : nat) :
  (isClass p && negb (isBase p) = true ∧
   ((∃ val, build body p = Ok val ∧
            one body paramVal p idx
              = Ok (Some (mkProvider (valueOf val) idx), paramVal)) ∨
    (∃ err, build body p = Throw err ∧
            one body paramVal p idx = Throw (BadRequestErrorOf (describe err))))) ∨
  (isClass p && negb (isBase p) = false ∧ isBase p = true ∧
   one body paramVal p idx
     = Ok (Some (mkProvider (from_option (convert p) VUndefined paramVal) idx), None)) ∨
  (canBind p = false ∧ one body paramVal p idx = Ok (None, paramVal)).
Proof.
  unfold bindOne, bindable.
  destruct (isClass p && negb (isBase p)) eqn:Hclass.
  - left. split; [done|]. destruct (build body p) as [val|err]; eauto.
  - right. destruct (isBase p) eqn:Hbase.
    + left. by destruct paramVal.
    + right. done.
Qed.

(** Where each provider of a successful binding comes from. *)
Lemma bindFrom_provenance (body : gmap string string) (params : list ParamToken) :
  ∀ (paramVal : option string) (idx : nat) (ps : list Provider),
    from body paramVal idx params = Ok ps →
    ∀ pr, pr ∈ ps →
      ∃ j tok pv pv', params !! j = Some tok ∧
                      one body pv tok (idx + j) = Ok (Some pr, pv').
Proof.
  induction params as [|p params IH]; intros paramVal idx ps Hps pr Hpr; simpl in Hps.
  - injection Hps as <-. by apply elem_of_nil in Hpr.
  - destruct (one body paramVal p idx) as [[provider paramVal']|err] eqn:Hone; [|done].
    destruct (from body paramVal' (S idx) params) as [providers|err] eqn:Hrest; [|done].
    injection Hps as <-.
    assert (Hlater : pr ∈ providers →
      ∃ j tok pv pv', (p :: params) !! j = Some tok ∧
                      one body pv tok (idx + j) = Ok (Some pr, pv')).
    { intros Hin. destruct (IH _ _ _ Hrest pr Hin) as (j & tok & pv & pv' & Hj & Hb).
      exists (S j), tok, pv, pv'. split; [done|].
      by replace (idx + S j)%nat with (S idx + j)%nat by lia. }
    destruct provider as [pr0|]; [|by apply Hlater].
    apply elem_of_cons in Hpr as [->|Hin]; [|by apply Hlater].
    exists 0%nat, p, paramVal, paramVal'. split; [done|].
    by rewrite Nat.add_0_r.
Qed.

Lemma bindOne_index (body : gmap string string) (pv pv' : option string)
    (tok : ParamToken) (idx : nat) (pr : Provider) :
  one body pv tok idx = Ok (Some pr, pv') → index pr = idx ∧ canBind tok = true.
Proof.
  intros Hone. unfold bindable.
  destruct (bindOne_cases body pv tok idx)
    as [[Hc [(inst & _ & Heq)|(err & _ & Heq)]] | [(Hc & Hb & Heq) | (Hb & Heq)]];
    rewrite Heq in Hone; try done; injection Hone as <- _; cbn; split; try done.
  - by rewrite Hc.
  - by rewrite Hc, Hb.
Qed.

Lemma fromRest_valueOf (val : Instance) : fromRest (valueOf val) = false.
Proof. by destruct val. Qed.

Lemma bindFrom_without_rest (body : gmap string string) (params : list ParamToken) :
  ∀ (idx : nat) (ps : list Provider),
    from body None idx params = Ok ps →
    List.filter (λ pr, fromRest (value pr)) ps = [].
Proof.
  induction params as [|p params IH]; intros idx ps Hps; simpl in Hps.
  - by injection Hps as <-.
  - destruct (bindOne_cases body None p idx)
      as [[_ [(inst & _ & Heq)|(err & _ & Heq)]] | [(_ & _ & Heq) | (_ & Heq)]];
      rewrite Heq in Hps; try done;
      destruct (from body None (S idx) params) as [providers|] eqn:Hrest; try done;
      injection Hps as <-; cbn; rewrite ?fromRest_valueOf; by apply (IH (S idx)).
Qed.

Lemma bindFrom_rest_once (body : gmap string string) (params : list ParamToken) :
  ∀ (paramVal : option string) (idx : nat) (ps : list Provider),
    from body paramVal idx params = Ok ps →
    (length (List.filter (λ pr, fromRest (value pr)) ps) ≤ 1)%nat.
Proof.
  induction params as [|p params IH]; intros paramVal idx ps Hps; simpl in Hps.
  - injection Hps as <-. simpl. lia.
  - destruct (bindOne_cases body paramVal p idx)
      as [[_ [(inst & _ & Heq)|(err & _ & Heq)]] | [(_ & _ & Heq) | (_ & Heq)]];
      rewrite Heq in Hps; try done.
    + destruct (from body paramVal (S idx) params) as [providers|] eqn:Hrest; [|done].
      injection Hps as <-. cbn. rewrite fromRest_valueOf. by apply (IH paramVal (S idx)).
    + destruct (from body None (S idx) params) as [providers|] eqn:Hrest; [|done].
      injection Hps as <-. cbn.
      rewrite (bindFrom_without_rest body params (S idx) providers Hrest).
      destruct (fromRest _); simpl; lia.
    + destruct (from body paramVal (S idx) params) as [providers|] eqn:Hrest; [|done].
      injection Hps as <-. by apply (IH paramVal (S idx)).
Qed.

(** X23. The REST value of a request is bound at most once: among the
    providers of a successful binding at most one carries a value made
    from it. *)
Theorem createProvider_rest_once
    (this : ControllerRoute) (meta : RouteMetadata) (params : list ParamToken)
    (ctx_url : string) (body : gmap string string) (ps : list Provider) :
  create this meta params ctx_url body = Ok ps →
  (length (List.filter (λ pr, fromRest (value pr)) ps) ≤ 1)%nat.
Proof.
  unfold ParameterBinder.createProvider.
  destruct (0 <? Z.of_nat (length params)).
  - apply bindFrom_rest_once.
  - intros [= <-]. simpl. lia.
Qed.

Lemma bindFrom_slots (body : gmap string string) (params : list ParamToken) :
  ∀ (paramVal : option string) (idx : nat) (ps : list Provider),
    from body paramVal idx params = Ok ps →
    StronglySorted lt (map index ps) ∧
    ∀ i, i ∈ map index ps ↔
         ∃ j tok, i = (idx + j)%nat ∧ params !! j = Some tok ∧ canBind tok = true.
Proof.
  induction params as [|p params IH]; intros paramVal idx ps Hps; simpl in Hps.
  - injection Hps as <-. split; [constructor|]. intros i. split.
    + by intros ?%elem_of_nil.
    + by intros (j & tok & _ & Hj & _).
  - destruct (one body paramVal p idx) as [[provider paramVal']|err] eqn:Hone; [|done].
    destruct (from body paramVal' (S idx) params) as [providers|err] eqn:Hrest; [|done].
    injection Hps as <-. destruct (IH _ _ _ Hrest) as [Hsorted Hiff].
    assert (Hlater : ∀ i, i ∈ map index providers ↔
              ∃ j tok, i = (idx + S j)%nat ∧ params !! j = Some tok ∧ canBind tok = true).
    { intros i. rewrite Hiff. split; intros (j & tok & -> & Hj & Hb);
        exists j, tok; (split; [lia | done]). }
    destruct provider as [pr|].
    + destruct (bindOne_index _ _ _ _ _ _ Hone) as [Hidx Hbind]. cbn. split.
      * constructor; [done|]. apply Forall_forall. intros i Hi.
        apply Hlater in Hi as (j & tok & -> & _). lia.
      * intros i. rewrite elem_of_cons, Hlater. split.
        -- intros [->|(j & tok & -> & Hj & Hb)].
           ++ exists 0%nat, p. by rewrite Hidx, Nat.add_0_r.
           ++ by exists (S j), tok.
        -- intros ([|j] & tok & -> & Hj & Hb).
           ++ left. by rewrite Hidx, Nat.add_0_r.
           ++ right. by exists j, tok.
    + split; [done|]. intros i. rewrite Hlater. split.
      * intros (j & tok & -> & Hj & Hb). by exists (S j), tok.
      * intros ([|j] & tok & -> & Hj & Hb); [|by exists j, tok].
        injection Hj as <-.
        destruct (bindOne_cases body paramVal p idx)
          as [[_ [(inst & _ & Heq)|(err & _ & Heq)]] | [(_ & _ & Heq) | (Hno & _)]];
          rewrite ?Heq in Hone; try done. congruence.
Qed.

(** X24. A successful binding has one provider for each parameter that is
    an injectable class or a base type, and none for the others; the
    providers come in the order of the parameters, each with the position
    of its parameter as index. *)
Theorem createProvider_slots
    (this : ControllerRoute) (meta : RouteMetadata) (params : list ParamToken)
    (ctx_url : string) (body : gmap string string) (ps : list Provider) :
  create this meta params ctx_url body = Ok ps →
  StronglySorted lt (map index ps) ∧
  ∀ i, i ∈ map index ps ↔ ∃ tok, params !! i = Some tok ∧ canBind tok = true.
Proof.
  unfold ParameterBinder.createProvider.
  destruct (0 <? Z.of_nat (length params)) eqn:Hlen.
  - intros Hps. destruct (bindFrom_slots _ _ _ _ _ Hps) as [Hsorted Hiff].
    split; [done|]. intros i. rewrite Hiff. split.
    + intros (j & tok & -> & Hj & Hb). by exists tok.
    + intros (tok & Hi & Hb). by exists i, tok.
  - intros [= <-]. split; [constructor|]. intros i. split.
    + by intros ?%elem_of_nil.
    + intros (tok & Hi & _). apply Z.ltb_ge in Hlen.
      destruct params; [done | simpl in Hlen; lia].
Qed.

Lemma assign_lookup (val val' : Instance) (m v n : string) :
  assign val m v = Ok val' →
  val' !! n = if decide (n = m) then Some v else val !! n.
Proof.
  destruct val as [|fields refuses]; simpl; [done|].
  destruct (refuses m v); [done|]. intros [= <-].
  unfold lookup at 1, Instance_lookup.
  destruct (decide (n = m)) as [->|Hne];
    [apply lookup_insert_eq | by apply lookup_insert_ne].
Qed.

(** The fields after the loop ran to its end. *)
Lemma assignFields_lookup (names : list string) (body : gmap string string)
    (val val' : Instance) (n : string) :
  assignFields names body val = Ok val' →
  val' !! n
    = if bool_decide (n ∈ names)
      then match body !! n with Some v => Some v | None => val !! n end
      else val !! n.
Proof.
  revert val. induction names as [|m names IH]; intros val; simpl.
  - by intros [= <-].
  - destruct (body !! m) as [v|] eqn:Hm.
    + destruct (assign val m v) as [val1|err] eqn:Hassign; [|done].
      intros Hrest. rewrite (IH _ Hrest).
      rewrite (assign_lookup _ _ _ _ n Hassign).
      destruct (decide (n = m)) as [->|Hne].
      * rewrite (bool_decide_true (m ∈ m :: names)) by constructor.
        rewrite Hm. by destruct (bool_decide (m ∈ names)).
      * destruct (decide (n ∈ names)) as [Hin|Hout].
        -- by rewrite !bool_decide_true by (done || by right).
        -- rewrite !bool_decide_false; [done | | done].
           intros [?|?]%elem_of_cons; done.
    + intros Hrest. rewrite (IH _ Hrest).
      destruct (decide (n = m)) as [->|Hne].
      * rewrite (bool_decide_true (m ∈ m :: names)) by constructor.
        rewrite Hm. by destruct (bool_decide (m ∈ names)).
      * destruct (decide (n ∈ names)) as [Hin|Hout].
        -- by rewrite !bool_decide_true by (done || by right).
        -- rewrite !bool_decide_false; [done | | done].
           intros [?|?]%elem_of_cons; done.
Qed.

(** The loop keeps an object an object, and [null] what it is. *)
Lemma assignFields_valueOf (names : list string) (body : gmap string string)
    (val val' : Instance) (fields : gmap string string) :
  assignFields names body val = Ok val' → valueOf val' = VInstance fields →
  ∀ n, val' !! n = fields !! n.
Proof. intros _. destruct val'; simpl; [done|]. by intros [= <-]. Qed.

(** On [null] the loop throws at the first declared field the body holds,
    and only then. *)
Lemma assignFields_null (names : list string) (body : gmap string string) :
  (∃ n, n ∈ names ∧ is_Some (body !! n)) ↔
  assignFields names body INull = Throw (mkFault (OtherError "TypeError") ∅).
Proof.
  induction names as [|m names IH]; simpl.
  - split; [by intros (n & ?%elem_of_nil & _) | done].
  - destruct (body !! m) as [v|] eqn:Hm.
    + split; [done|]. intros _. exists m. split; [constructor | by rewrite Hm].
    + rewrite <- IH. split.
      * intros (n & [->|Hin]%elem_of_cons & Hn); [by rewrite Hm in Hn; destruct Hn|].
        by exists n.
      * intros (n & Hin & Hn). exists n. split; [by right | done].
Qed.

(** X25. An instance bound to a class-typed parameter is the instance of
    the container in which exactly the fields the class declares as
    bindable, and that the request body holds, are overwritten from the
    body; every other field keeps the value the container gave it. *)
Theorem createProvider_fields
    (this : ControllerRoute) (meta : RouteMetadata) (params : list ParamToken)
    (ctx_url : string) (body : gmap string string) (ps : list Provider)
    (pr : Provider) (fields : gmap string string) :
  create this meta params ctx_url body = Ok ps →
  pr ∈ ps → value pr = VInstance fields →
  ∃ tok inst, params !! index pr = Some tok ∧ containerGet tok = Ok inst ∧
    ∀ n, fields !! n
         = if bool_decide (n ∈ getPropertyMetadata tok)
           then match body !! n with Some v => Some v | None => inst !! n end
           else inst !! n.
Proof.
  unfold ParameterBinder.createProvider.
  destruct (0 <? Z.of_nat (length params));
    [|intros [= <-] Hin; by apply elem_of_nil in Hin].
  intros Hps Hpr Hvalue.
  destruct (bindFrom_provenance _ _ _ _ _ Hps pr Hpr)
    as (j & tok & pv & pv' & Hj & Hone).
  exists tok. simpl in Hone.
  destruct (bindOne_cases body pv tok j)
    as [[_ [(val & Hbuild & Heq)|(err & _ & Heq)]] | [(_ & _ & Heq) | (_ & Heq)]];
    rewrite Heq in Hone; try done; injection Hone as <- _; cbn in *.
  - unfold instantiate in Hbuild.
    destruct (containerGet tok) as [inst|err] eqn:Hget; [|done].
    exists inst. split; [done|]. split; [done|]. intros n.
    rewrite <- (assignFields_valueOf _ _ _ _ _ Hbuild Hvalue).
    by apply assignFields_lookup.
  - destruct pv as [s|]; [destruct tok|]; done.
Qed.

Lemma bindFrom_fault (body : gmap string string) (params : list ParamToken) :
  ∀ (paramVal : option string) (idx : nat) (f : Fault),
    from body paramVal idx params = Throw f →
    ∃ tok err, tok ∈ params ∧ isClass tok && negb (isBase tok) = true ∧
               build body tok = Throw err ∧
               f = BadRequestErrorOf (describe err).
Proof.
  induction params as [|p params IH]; intros paramVal idx f Hf; simpl in Hf; [done|].
  destruct (bindOne_cases body paramVal p idx)
    as [[Hc [(val & _ & Heq)|(err & Hbuild & Heq)]] | [(_ & _ & Heq) | (_ & Heq)]];
    rewrite Heq in Hf.
  2:{ injection Hf as <-. exists p, err. split; [constructor | done]. }
  - destruct (from body paramVal (S idx) params) as [providers|err'] eqn:Hrest; [done|].
    injection Hf as <-.
    destruct (IH _ _ _ Hrest) as (tok & err & Hin & Hclass & Hbuild & ->).
    exists tok, err. split; [by right | done].
  - destruct (from body None (S idx) params) as [providers|err'] eqn:Hrest; [done|].
    injection Hf as <-.
    destruct (IH _ _ _ Hrest) as (tok & err & Hin & Hclass & Hbuild & ->).
    exists tok, err. split; [by right | done].
  - destruct (from body paramVal (S idx) params) as [providers|err'] eqn:Hrest; [done|].
    injection Hf as <-.
    destruct (IH _ _ _ Hrest) as (tok & err & Hin & Hclass & Hbuild & ->).
    exists tok, err. split; [by right | done].
Qed.

(** X26. A binding fails only at a parameter that is an injectable class
    and no base type, and only in one of two ways: [container.get] fails
    for it, or assigning one of the declared fields from the body into the
    instance throws (on a [null] instance, on a property that cannot be
    written). Whatever was thrown comes out as a bad request (status 400)
    whose message is the description of it. *)
Theorem createProvider_fault
    (this : ControllerRoute) (meta : RouteMetadata) (params : list ParamToken)
    (ctx_url : string) (body : gmap string string) (f : Fault) :
  create this meta params ctx_url body = Throw f →
  ∃ tok err, tok ∈ params ∧ isClass tok = true ∧ isBase tok = false ∧
             (containerGet tok = Throw err ∨
              ∃ inst, containerGet tok = Ok inst ∧
                      assignFields (getPropertyMetadata tok) body inst = Throw err) ∧
             kind f = HttpError 400 (describe err).
Proof.
  unfold ParameterBinder.createProvider.
  destruct (0 <? Z.of_nat (length params)); [|done].
  intros Hf.
  destruct (bindFrom_fault _ _ _ _ _ Hf) as (tok & err & Hin & Hclass & Hbuild & ->).
  apply andb_true_iff in Hclass as [Hclass Hbase%negb_true_iff].
  exists tok, err. repeat split; try done.
  unfold instantiate in Hbuild.
  destruct (containerGet tok) as [inst|err'] eqn:Hget.
  - right. by exists inst.
  - left. by injection Hbuild as ->.
Qed.

(** X27. For a REST pattern and a normalized path made of the pattern's
    static prefix, a slash, a non-empty segment without slash, and then
    nothing or a further path, the REST value is that segment. *)
Theorem restValue_segment
    (this : ControllerRoute) (meta : RouteMetadata) (ctx_url seg tail : string) :
  isRestUri (routeOf meta) = true →
  routPathOf this ctx_url = (staticPrefix (routeOf meta) +:+ "/") +:+ (seg +:+ tail) →
  seg ≠ "" → JS.indexOf seg "/" = -1 →
  (tail = "" ∨ ∃ t, tail = String "/" t) →
  restValue this meta ctx_url = Some seg.
Proof.
  intros Hrest Hpath Hseg Hslash Htail. unfold restValue.
  rewrite Hrest, Hpath. fold (staticPrefix (routeOf meta)).
  rewrite replace_leading. f_equal.
  apply index_slash_none in Hslash.
  destruct Htail as [->|[t ->]].
  - rewrite append_empty. unfold JS.indexOf. by rewrite Hslash.
  - unfold JS.indexOf, JS.substr. rewrite (index_slash_app seg t Hslash).
    assert (0 < String.length seg)%nat by (destruct seg; [done | simpl; lia]).
    destruct (Z.ltb_spec 0 (Z.of_nat (String.length seg))); [|lia].
    rewrite Nat2Z.id. apply substring_app_take.
Qed.

End BinderFacts.

(** X17 run on the chain a, b: an entry declared after a goes between
    them. *)
Lemma insertByMeta_after_present_witness :
  MiddlewareChain.insertByMeta cAfterA (MiddlewareChain.MwString "c") chainAB
    = take 1 chainAB ++ entryC :: drop 1 chainAB.
Proof.
  apply (insertByMeta_after_present cAfterA (MiddlewareChain.MwString "c")
           chainAB "a" 0 (entryNamed "a"));
    [split; reflexivity | reflexivity | reflexivity |].
  intros j u Hj. lia.
Defined.

(** X18 run on the chain a, b: an entry declared before the absent name z
    goes to the end. *)
Lemma insertByMeta_appends_witness :
  MiddlewareChain.insertByMeta cBeforeZ (MiddlewareChain.MwString "c") chainAB
    = chainAB ++ [entryC].
Proof.
  apply (insertByMeta_appends cBeforeZ (MiddlewareChain.MwString "c") chainAB);
    [reflexivity|].
  right. intros v Hv. unfold chainAB in Hv.
  repeat (apply elem_of_cons in Hv as [->|Hv]; [discriminate|]).
  by apply elem_of_nil in Hv.
Defined.

(** X19 run with a match that is an object no class stands behind. *)
Lemma use_relative_unresolved_witness :
  MiddlewareChain.useBefore (MiddlewareChain.MwObject "Middleware")
      noClass noImpl noTypeMetadata
      (MiddlewareChain.MwString "c") (Some (MiddlewareChain.MwObject "ghost")) chainAB
    = Throw (mkFault (OtherError "TypeError") ∅) ∧
  MiddlewareChain.useAfter (MiddlewareChain.MwObject "Middleware")
      noClass noImpl noTypeMetadata
      (MiddlewareChain.MwString "c") (Some (MiddlewareChain.MwObject "ghost")) chainAB
    = Throw (mkFault (OtherError "TypeError") ∅).
Proof.
  apply (use_relative_unresolved (MiddlewareChain.MwObject "Middleware")
           noClass noImpl noTypeMetadata
           (MiddlewareChain.MwString "c") (MiddlewareChain.MwObject "ghost") chainAB);
    [reflexivity|].
  right. reflexivity.
Defined.

(** X21 run on two plain functions. *)
Lemma use_functions_witness :
  MiddlewareChain.use (MiddlewareChain.MwObject "Middleware")
      noClass noImpl noTypeMetadata neverToken alwaysFunction plainFunctions chainAB
    = chainAB ++ map (MiddlewareChain.mkOrder None) plainFunctions ∧
  MiddlewareChain.getChain
      (MiddlewareChain.use (MiddlewareChain.MwObject "Middleware")
         noClass noImpl noTypeMetadata neverToken alwaysFunction plainFunctions chainAB)
    = MiddlewareChain.getChain chainAB ++ plainFunctions.
Proof.
  apply (use_functions (MiddlewareChain.MwObject "Middleware")
           noClass noImpl noTypeMetadata neverToken alwaysFunction plainFunctions chainAB).
  intros mdl _. split; reflexivity.
Defined.

(** X23 run on GET /users/42 with the parameters (Number, String): the
    number takes the REST value, the string gets nothing. *)
Lemma createProvider_rest_once_witness :
  (length (List.filter (λ pr, ParameterBinder.fromRest (ParameterBinder.value pr))
             [ParameterBinder.mkProvider (ParameterBinder.VParseFloat "42") 0;
              ParameterBinder.mkProvider ParameterBinder.VUndefined 1]) ≤ 1)%nat.
Proof.
  apply (createProvider_rest_once (H := plainExternals) demoIsClass demoIsToken
           demoIsFunction demoFields demoGet demoDescribe usersRoute showMeta
           [ParameterBinder.TNumber; ParameterBinder.TString] "/users/42" ∅).
  reflexivity.
Defined.

(** X24 run on the parameters (UserForm, a symbol-like token, String): the
    first and the third get providers; the second, a token that is a
    function and no class, gets none. *)
Lemma createProvider_slots_witness :
  StronglySorted lt
    (map ParameterBinder.index
       [ParameterBinder.mkProvider
          (ParameterBinder.VInstance (<["name" := "Ann"]> demoInstance)) 0;
        ParameterBinder.mkProvider (ParameterBinder.VString "42") 2]) ∧
  ∀ i, i ∈ map ParameterBinder.index
             [ParameterBinder.mkProvider
                (ParameterBinder.VInstance (<["name" := "Ann"]> demoInstance)) 0;
              ParameterBinder.mkProvider (ParameterBinder.VString "42") 2] ↔
       ∃ tok, [ParameterBinder.TOther "UserForm"; ParameterBinder.TOther "plain";
               ParameterBinder.TString] !! i = Some tok ∧
              ParameterBinder.bindable demoIsClass demoIsToken demoIsFunction tok = true.
Proof.
  apply (createProvider_slots (H := plainExternals) demoIsClass demoIsToken
           demoIsFunction demoFields demoGet demoDescribe usersRoute showMeta
           [ParameterBinder.TOther "UserForm"; ParameterBinder.TOther "plain";
            ParameterBinder.TString] "/users/42" formBody).
  vm_compute. reflexivity.
Defined.

(** X25 run on a UserForm and a body with name and role: the declared
    field name is taken from the body, the undeclared field role keeps the
    container's value. *)
Lemma createProvider_fields_witness :
  ∃ tok inst,
    [ParameterBinder.TOther "UserForm"] !! 0%nat = Some tok ∧
    demoGet tok = Ok inst ∧
    ∀ n, <["name" := "Ann"]> demoInstance !! n
         = if bool_decide (n ∈ demoFields tok)
           then match formBody !! n with Some v => Some v | None => inst !! n end
           else inst !! n.
Proof.
  apply (createProvider_fields (H := plainExternals) demoIsClass demoIsToken
           demoIsFunction demoFields demoGet demoDescribe usersRoute showMeta
           [ParameterBinder.TOther "UserForm"] "/users/42" formBody
           [ParameterBinder.mkProvider
              (ParameterBinder.VInstance (<["name" := "Ann"]> demoInstance)) 0]
           (ParameterBinder.mkProvider
              (ParameterBinder.VInstance (<["name" := "Ann"]> demoInstance)) 0)).
  - vm_compute. reflexivity.
  - constructor.
  - reflexivity.
Defined.

Example createProvider_no_mass_assignment :
  demoBinder usersRoute showMeta [ParameterBinder.TOther "UserForm"] "/users/42" formBody
    = Ok [ParameterBinder.mkProvider
            (ParameterBinder.VInstance
               (<["name" := "Ann"]> (<["role" := "user"]> ∅))) 0].
Proof. vm_compute. reflexivity. Qed.

(** X26 run on a class for which the container answers [null], with a
    body that holds the declared field. *)
Lemma createProvider_fault_witness :
  ∃ tok err, tok ∈ [ParameterBinder.TString; ParameterBinder.TOther "Ghost"] ∧
             demoIsClass tok = true ∧
             ParameterBinder.isBaseType demoIsToken demoIsFunction tok = false ∧
             (demoGet tok = Throw err ∨
              ∃ inst, demoGet tok = Ok inst ∧
                      ParameterBinder.assignFields (demoFields tok) formBody inst
                        = Throw err) ∧
             kind (ParameterBinder.BadRequestErrorOf "TypeError")
               = HttpError 400 (demoDescribe err).
Proof.
  apply (createProvider_fault (H := plainExternals) demoIsClass demoIsToken
           demoIsFunction demoFields demoGet demoDescribe usersRoute showMeta
           [ParameterBinder.TString; ParameterBinder.TOther "Ghost"] "/users/42" formBody).
  reflexivity.
Defined.

(** A class the container cannot build fails the binding as well. *)
Example createProvider_broken :
  demoBinder usersRoute showMeta
      [ParameterBinder.TString; ParameterBinder.TOther "Broken"] "/users/42" ∅
    = Throw (ParameterBinder.BadRequestErrorOf "no provider").
Proof. reflexivity. Qed.

(** X27 run on /users/42/orders against the pattern /users/:id. *)
Lemma restValue_segment_witness :
  ParameterBinder.restValue (H := plainExternals) usersRoute showMeta "/users/42/orders"
    = Some "42".
Proof.
  apply (restValue_segment (H := plainExternals) usersRoute showMeta
           "/users/42/orders" "42" "/orders"); try reflexivity.
  - discriminate.
  - right. by exists "orders".
Defined.

(** The scenario of a numeric path parameter: GET /users/42 binds
    [parseFloat('42')] to the one Number parameter. *)
Example createProvider_number :
  demoBinder usersRoute showMeta [ParameterBinder.TNumber] "/users/42" ∅
    = Ok [ParameterBinder.mkProvider (ParameterBinder.VParseFloat "42") 0].
Proof. reflexivity. Qed.

(** * Properties of the route-url test *)

Section ConfigurationFacts.

Import Configuration.

Lemma matches_Alt (r1 r2 : RegExp) (s : string) :
  matches (Alt r1 r2) s = matches r1 s || matches r2 s.
Proof. revert r1 r2. induction s as [|a s IH]; intros r1 r2; simpl; [done | apply IH]. Qed.

Lemma matches_Seq_nullable (r1 r2 : RegExp) (s : string) :
  nullable r1 = true → matches r2 s = true → matches (Seq r1 r2) s = true.
Proof.
  intros Hnull Hs. destruct s as [|a s]; simpl in *.
  - by rewrite Hnull, Hs.
  - rewrite Hnull, matches_Alt, Hs. apply orb_true_r.
Qed.

Lemma matches_Seq (r1 r2 : RegExp) (s1 s2 : string) :
  matches r1 s1 = true → matches r2 s2 = true → matches (Seq r1 r2) (s1 +:+ s2) = true.
Proof.
  revert r1. induction s1 as [|a s1 IH]; intros r1 H1 H2.
  - by apply matches_Seq_nullable.
  - rewrite append_cons. simpl in *. destruct (nullable r1).
    + rewrite matches_Alt, IH; done.
    + by apply IH.
Qed.

Lemma matches_Char (accepts : ascii → bool) (a : ascii) :
  accepts a = true → matches (Char accepts) (String a "") = true.
Proof. intros Ha. simpl. by rewrite Ha. Qed.

Lemma matches_Star_words (r : RegExp) (s : string) :
  (∀ a, wordChar a = true → nullable (derive a r) = true) →
  allWord s = true → matches (Star r) s = true.
Proof.
  intros Hr. induction s as [|a s IH]; intros Hall; [done|]. simpl in *.
  apply andb_true_iff in Hall as [Ha Hall].
  apply matches_Seq_nullable; [by apply Hr | by apply IH].
Qed.

Lemma matches_Plus_words (r : RegExp) (s : string) :
  (∀ a, wordChar a = true → nullable (derive a r) = true) →
  s ≠ "" → allWord s = true → matches (Plus r) s = true.
Proof.
  intros Hr Hs Hall. destruct s as [|a s]; [done|]. simpl in *.
  apply andb_true_iff in Hall as [Ha Hall].
  assert (Hrest : matches (Seq (derive a r) (Star r)) s = true).
  { apply matches_Seq_nullable; [by apply Hr | by apply matches_Star_words]. }
  destruct (nullable r); [|done]. by rewrite matches_Alt, Hrest.
Qed.

Lemma testToEnd_suffix (r : RegExp) (pre s : string) :
  matches r s = true → testToEnd r (pre +:+ s) = true.
Proof.
  intros Hs. induction pre as [|a pre IH].
  - change ("" +:+ s) with s. destruct s; simpl in *; by rewrite Hs.
  - rewrite append_cons. simpl. rewrite IH. apply orb_true_r.
Qed.

(** X28. With the regular expression as written, whose dot before the
    final word is unescaped, a url is not a route url as soon as it ends
    in a slash, one or more word characters, any one character, and one or
    more word characters: /users and /users/42 are no route urls. *)
Theorem isRouteUrl_rejects_words (pre w v : string) (y : ascii) :
  w ≠ "" → allWord w = true → anyChar y = true → v ≠ "" → allWord v = true →
  isRouteUrl (pre +:+ String "/" (w +:+ String y v)) = false.
Proof.
  intros Hw Hallw Hy Hv Hallv. unfold isRouteUrl. apply negb_false_iff.
  apply testToEnd_suffix.
  change (String "/" (w +:+ String y v))
    with (String "/" "" +:+ (w +:+ (String y "" +:+ v))).
  unfold routeUrlRegExp.
  apply matches_Seq; [by apply matches_Char|].
  apply matches_Seq; [|apply matches_Seq].
  - apply matches_Plus_words; [|done..]. intros a Ha. simpl. by rewrite Ha.
  - by apply matches_Char.
  - apply matches_Plus_words; [|done..]. intros a Ha. simpl. by rewrite Ha.
Qed.

End ConfigurationFacts.

(** X28 run on /users/42: the words are users and 42, the character
    between them is the slash. *)
Lemma isRouteUrl_rejects_words_witness :
  Configuration.isRouteUrl ("" +:+ String "/" ("users" +:+ String "/" "42")) = false.
Proof.
  apply (isRouteUrl_rejects_words "" "users" "42" "/"); (reflexivity || discriminate).
Defined.

Example isRouteUrl_examples :
  Configuration.isRouteUrl "/users" = false ∧
  Configuration.isRouteUrl "/users/42" = false ∧
  Configuration.isRouteUrl "/app.js" = false ∧
  Configuration.isRouteUrl "/users/" = true ∧
  Configuration.isRouteUrl "/" = true ∧
  Configuration.isRouteUrl "/ab" = true.
Proof. vm_compute. repeat split. Qed.

(** * The continuation is called at most once *)

Lemma neverNext_ret {A} (a : A) : neverNext (mret a).
Proof. intros w. exists []. rewrite app_nil_r. split; [done | by intros ?%elem_of_nil]. Qed.

Lemma neverNext_throw {A} (err : Fault) : neverNext (mthrow err : M A).
Proof. intros w. exists []. rewrite app_nil_r. split; [done | by intros ?%elem_of_nil]. Qed.

Lemma neverNext_getCtx : neverNext getCtx.
Proof. intros w. exists []. rewrite app_nil_r. split; [done | by intros ?%elem_of_nil]. Qed.

Lemma neverNext_modifyCtx (f : Context → Context) : neverNext (modifyCtx f).
Proof. intros w. exists []. rewrite app_nil_r. split; [done | by intros ?%elem_of_nil]. Qed.

Lemma neverNext_liftResult {A} (r : Result A) : neverNext (liftResult r).
Proof. intros w. exists []. rewrite app_nil_r. split; [done | by intros ?%elem_of_nil]. Qed.

Lemma neverNext_emit (e : Event) : e ≠ EvNext → neverNext (emit e).
Proof.
  intros He w. exists [e]. split; [done|]. intros ?%list_elem_of_singleton; congruence.
Qed.

Lemma neverNext_callExternal {A} (e : Event) (f : Context → Result A * Context) :
  e ≠ EvNext → neverNext (callExternal e f).
Proof.
  intros He w. exists [e]. unfold callExternal. destruct (f (ctx w)) as [r c].
  split; [done|]. intros ?%list_elem_of_singleton; congruence.
Qed.

Lemma neverNext_bind {A B} (m : M A) (k : A → M B) :
  neverNext m → (∀ a, neverNext (k a)) → neverNext (m ≫= k).
Proof.
  intros Hm Hk w. unfold mbind, M_bind. destruct (Hm w) as (t1 & Ht1 & Hn1).
  destruct (m w) as [[a|err] w1]; cbn in *; [|by exists t1].
  destruct (Hk a w1) as (t2 & Ht2 & Hn2). exists (t1 ++ t2).
  rewrite Ht2, Ht1, app_assoc. split; [done|].
  intros [?|?]%elem_of_app; done.
Qed.

Lemma neverNext_sendResponse (contentType : option string) (response : Response) :
  neverNext (sendResponse contentType response).
Proof.
  destruct response; unfold sendResponse, assignBody, assignBuffer; cbn;
    first [ apply neverNext_ret
          | apply neverNext_modifyCtx
          | by apply neverNext_callExternal
          | apply neverNext_bind; [apply neverNext_modifyCtx|];
            intros; apply neverNext_modifyCtx ].
Qed.

Section OnceFacts.

Context `{Externals}.

Lemma neverNext_dispatch (this : ControllerRoute) (container : IContainer) :
  neverNext (dispatch this container).
Proof.
  unfold dispatch. apply neverNext_bind; [apply neverNext_getCtx|]. intros c.
  destruct (bool_decide _); [|apply neverNext_throw].
  unfold invoke. apply neverNext_bind; [apply neverNext_getCtx|]. intros c'.
  apply neverNext_bind; [by apply neverNext_emit|]. intros _.
  destruct (getRouteMetaData _ _ _) as [meta|]; [|apply neverNext_throw].
  destruct (JS.truthy _); [|apply neverNext_throw].
  apply neverNext_bind; [by apply neverNext_emit|]. intros _.
  apply neverNext_bind.
  { destruct (hasAuthorization container); [|apply neverNext_ret].
    destruct (authorizationMetadata _ _); [|apply neverNext_ret].
    apply neverNext_bind; [by apply neverNext_callExternal|]. intros ok.
    destruct (negb ok); [apply neverNext_throw | apply neverNext_ret]. }
  intros _. apply neverNext_bind; [by apply neverNext_emit|]. intros _.
  apply neverNext_bind.
  { unfold bindParameters. apply neverNext_bind; [apply neverNext_getCtx|]. intros c2.
    apply neverNext_bind; [by apply neverNext_emit|]. intros _.
    apply neverNext_liftResult. }
  intros args. apply neverNext_bind; [by apply neverNext_callExternal|]. intros response.
  apply neverNext_sendResponse.
Qed.

(** X29. [navigating] calls the continuation exactly once, as its last
    step, when its [try] body ran without a fault, and not at all when the
    body raised one. *)
Theorem navigating_next_once
    (this : ControllerRoute) (container : IContainer) (next : Next) (w : World) :
  ∃ t, (EvNext ∉ t) ∧
       (trace (snd (navigating this container next w))
         = trace w ++ t
           ++ (if faultFree (dispatch this container w) then [EvNext] else [])).
Proof.
  unfold navigating, faultFree.
  destruct (neverNext_dispatch this container w) as (t & Ht & Hn).
  destruct (dispatch this container w) as [[[]|err] w1]; cbn in *.
  - exists t. split; [done|]. unfold callNext, callExternal.
    destruct (next (ctx w1)) as [r c]. cbn. by rewrite Ht, app_assoc.
  - unfold reportFault. destruct (kind err) as [code message|description]; run.
    + exists t. split; [done|]. by rewrite app_nil_r.
    + exists (t ++ [EvConsoleError err]). rewrite Ht, app_nil_r, app_assoc.
      split; [|done]. intros [?|[=]%list_elem_of_singleton]%elem_of_app. done.
Qed.

(** X30. On every path [invokeOption] calls the continuation at most once
    and consults the matcher at most once, the matcher first. *)
Theorem invokeOption_next_once
    (this : ControllerRoute) (container : IContainer) (next : Next) (w : World) :
  ∃ t, trace (snd (invokeOption this container next w)) = trace w ++ t ∧
       (t = [] ∨ t = [EvNext] ∨
        ∃ d, t = [EvGetRouteMetaData d] ∨ t = [EvGetRouteMetaData d; EvNext]).
Proof.
  assert (Hnext : ∀ c t0, ∃ t,
            trace (snd (callNext next (mkWorld c t0))) = t0 ++ t ∧ t = [EvNext]).
  { intros c t0. exists [EvNext]. unfold callNext, callExternal. cbn.
    by destruct (next c). }
  unfold invokeOption, setRecorded. run.
  destruct (JS.truthy (get_header (ctx w) "Origin")); cbn.
  2:{ destruct (Hnext (add_vary "Origin" (ctx w)) (trace w)) as (t & Ht & ->).
      exists [EvNext]. eauto. }
  destruct (methodIsNotOPTIONS (ctx w)).
  - repeat (match goal with
            | |- context [if ?b then _ else _] => destruct b
            end; run);
      match goal with
      | |- context [next ?c] => destruct (next c) as [[[]|err] c0]
      end; exists [EvNext]; eauto.
  - destruct (JS.truthy (get_header (ctx w) "Access-Control-Request-Method")); cbn.
    2:{ destruct (Hnext (add_vary "Origin" (ctx w)) (trace w)) as (t & Ht & ->).
        exists [EvNext]. eauto. }
    run.
    set (d := getDecoratorByMethod _).
    assert (Hpass : ∃ t,
      trace (snd (callNext next
                    (mkWorld (add_vary "Origin" (ctx w))
                             (trace w ++ [EvGetRouteMetaData d]))))
        = trace w ++ t ∧
      (t = [] ∨ t = [EvNext] ∨
       ∃ d, t = [EvGetRouteMetaData d] ∨ t = [EvGetRouteMetaData d; EvNext])).
    { destruct (Hnext (add_vary "Origin" (ctx w)) (trace w ++ [EvGetRouteMetaData d]))
        as (t & Ht & ->).
      exists [EvGetRouteMetaData d; EvNext]. rewrite Ht, <- app_assoc.
      split; [done|]. right. right. exists d. by right. }
    destruct (getRouteMetaData this (ctx_url (ctx w)) d) as [meta|]; [|apply Hpass].
    destruct (JS.truthy (propertyKey meta)); [|apply Hpass].
    destruct (resolveCors (controller this) (propertyKey meta)) as [|first rest];
      [apply Hpass|].
    repeat (match goal with
            | |- context [if ?b then _ else _] => destruct b
            end; run);
      exists [EvGetRouteMetaData d]; (split; [done|]); right; right; exists d; by left.
Qed.

End OnceFacts.
